(** * Daily technical indicators ETL: a shallow embedding and its properties

    The development follows the Python sources

    - [app/models/postgres_kline.py]              ([PostgresKline], [get_kline]),
    - [app/models/postgres_stock_info.py]         ([get_all_stock_ids]),
    - [app/models/postgres_daily_features_etl.py] ([DailyFeatureETL]),
    - [app/models/postgres_daily_features_orm.py] ([FeatureDaily]),
    - [app/api/v1/endpoints/daily_features_etl.py] (the batch loop).

    Modelling conventions.

    - A float64 cell of a data frame is an exact rational or NaN: [float] is
      [option Q] and [None] stands for NaN.  Arithmetic on cells propagates
      NaN, comparisons with NaN are false, as pandas and IEEE 754 have it.
      Rounding, overflow and infinities are outside the model.
    - The square root inside [Series.std] is a function [sqrt] on rationals
      that the development does not fix (class [Sqrt]): every property holds
      for each such function, and those that need a fact about the root state
      it.
    - Every column of the kline table that [PostgresKline] leaves nullable
      is a cell that may be NULL; a NULL close reaches the data frame as NaN.
    - A calendar date is its proleptic Gregorian ordinal (what
      [date.toordinal] returns), between [min_ordinal] and [max_ordinal], so
      that [timedelta(days=k)] is the subtraction of [k], with the
      [OverflowError] of Python when the result leaves the range.  The dates
      of a request are the texts [str(date)] writes, with a year of four
      digits; the text [strftime] writes for a date before year 1000 need not
      have that form, and what the database reads in it is a field of the
      world.
    - The clock, the kline table, the feature table, the log and the
      faults of the database are fields of an explicit [World] threaded through
      the stateful functions. *)

From Stdlib Require Import ZArith QArith Lia Lqa.
From stdpp Require Import base option list sorting strings gmap.

Set Default Proof Using "Type".

(** ** Float cells *)

Definition float : Type := option Q.
Definition NaN : float := None.

Definition lift2 (op : Q -> Q -> Q) (a b : float) : float :=
  match a, b with
  | Some x, Some y => Some (op x y)
  | _, _ => NaN
  end.

Definition fadd : float -> float -> float := lift2 Qplus.
Definition fsub : float -> float -> float := lift2 Qminus.
Definition fmul : float -> float -> float := lift2 Qmult.
(** A divisor equal to zero is not met in this program (the one division
    adds [epsilon] to a width that is never negative). *)
Definition fdiv : float -> float -> float := lift2 Qdiv.

Definition Qlt_bool (x y : Q) : bool := negb (Qle_bool y x).

(** [a > b] and [a < b] on cells: false as soon as one side is NaN. *)
Definition fgt (a b : float) : bool :=
  match a, b with
  | Some x, Some y => Qlt_bool y x
  | _, _ => false
  end.

Definition flt (a b : float) : bool := fgt b a.

(** [pd.isnull] on a float cell and on a boolean cell. *)
Definition isnull (a : float) : bool :=
  match a with Some _ => false | None => true end.

Definition isnull_bool (b : bool) : bool := false.

(** The square root of the floating-point library. *)
Class Sqrt : Type := sqrt : Q -> Q.

(** ** Series (columns of a data frame) *)

Abbreviation series := (list float).

Definition Qsum (l : list Q) : Q := foldr Qplus 0%Q l.

Definition Qlen (l : list Q) : Q := inject_Z (Z.of_nat (length l)).

(** Scalar broadcast and element-wise arithmetic of aligned columns. *)
Definition smul_scalar (k : Q) (s : series) : series := fmul (Some k) <$> s.
Definition sadd_scalar (s : series) (k : Q) : series := (fun a => fadd a (Some k)) <$> s.
Definition sadd (a b : series) : series := zip_with fadd a b.
Definition ssub (a b : series) : series := zip_with fsub a b.
Definition sdiv (a b : series) : series := zip_with fdiv a b.
Definition sgt (a b : series) : list bool := zip_with fgt a b.
Definition slt (a b : series) : list bool := zip_with flt a b.

(** *** [Series.rolling(window=w)]

    The window at row [i] holds the rows [i-w+1 .. i] that exist;
    [min_periods] defaults to [w], so the aggregate is NaN until [w]
    observations (non-NaN cells) are in the window. *)

Definition window (w i : nat) (xs : series) : list float :=
  drop (S i - w) (take (S i) xs).

Definition observations (win : list float) : list Q := omap id win.

Definition rolling (w : nat) (agg : list Q -> float) (xs : series) : series :=
  (fun i =>
     let obs := observations (window w i xs) in
     if decide (w <= length obs)%nat then agg obs else NaN)
  <$> seq 0 (length xs).

Definition mean (obs : list Q) : float := Some (Qsum obs / Qlen obs)%Q.

(** Sample standard deviation ([ddof=1], the default of pandas). *)
Definition std `{!Sqrt} (obs : list Q) : float :=
  if decide (length obs <= 1)%nat then NaN
  else
    let m := (Qsum obs / Qlen obs)%Q in
    let ss := Qsum ((fun x => (x - m) * (x - m))%Q <$> obs) in
    Some (sqrt (ss / (Qlen obs - 1))%Q).

(** *** [Series.ewm(span=n, adjust=False).mean()]

    The recursive form: the first observation seeds the average, then
    [y_t = (1 - alpha) * y_(t-1) + alpha * x_t] with [alpha = 2 / (n + 1)].
    A NaN cell repeats the previous average and ages its weight
    ([ignore_na=False]); leading NaN cells stay NaN. *)

Definition alpha_of_span (span : Z) : Q := (2 / (inject_Z span + 1))%Q.

Fixpoint ewm_go (alpha : Q) (weighted : float) (old_wt : Q) (xs : series) : series :=
  match xs with
  | [] => []
  | cur :: rest =>
      let '(weighted', old_wt') :=
        match weighted with
        | Some w =>
            let o := (old_wt * (1 - alpha))%Q in
            match cur with
            | Some c => (Some ((o * w + alpha * c) / (o + alpha))%Q, 1%Q)
            | None => (Some w, o)
            end
        | None => (cur, old_wt)
        end in
      weighted' :: ewm_go alpha weighted' old_wt' rest
  end.

Definition ewm_mean (span : Z) (xs : series) : series :=
  match xs with
  | [] => []
  | x :: rest => x :: ewm_go (alpha_of_span span) x 1%Q rest
  end.

(** ** Dates *)

Definition date : Type := Z.

(** The days before January 1st of a year ([_days_before_year] of the
    module [datetime]). *)
Definition days_before_year (year : Z) : Z :=
  let y := (year - 1)%Z in (y * 365 + y / 4 - y / 100 + y / 400)%Z.

(** [date.min] is 0001-01-01 and [date.max] is 9999-12-31. *)
Definition min_ordinal : Z := 1.
Definition max_ordinal : Z := days_before_year 10000.

(** 1000-01-01, the first day of a year of four digits. *)
Definition ordinal_year_1000 : Z := (days_before_year 1000 + 1)%Z.

(** The text of a date, as the database receives it: [Iso d] is
    "YYYY-MM-DD" with a year of four digits, what [str(date)] writes for
    every date and [strftime] from year 1000 on; [Unpadded d] is what
    [strftime("%Y-%m-%d")] writes for a date [d] before year 1000 where the C
    library does not pad the year ("1-03-12"). *)
Inductive date_text : Type :=
  | Iso (d : date)
  | Unpadded (d : date).

(** ** The kline table ([postgres_kline.py]) *)

Module Kline.

(** One row of the kline table, as [PostgresKline] declares it: [id],
    [stock_id] and [date] are not nullable, the other columns are. *)
Record t : Type := mk {
  id : Z;
  stock_id : string;
  date : Z;
  trading_volume : option Z;
  trading_money : option Z;
  open : float;
  max : float;
  min : float;
  close : float;
  spread : float;
  trading_turnover : option Z
}.

End Kline.

(** ** The data frame of [calculate_features] *)

Module DF.

(** The frame after [calculate_features]: the kline columns (kept row by
    row in [kline]) and one column per indicator. *)
Record t : Type := mk {
  kline : list Kline.t;
  ma5 : series;
  ema12 : series;
  ema26 : series;
  macd_dif : series;
  macd_dea : series;
  macd_osc : series;
  bb_ma20 : series;
  bb_std20 : series;
  bb_upper20 : series;
  bb_lower20 : series;
  bb_width20 : series;
  bb_pos20 : series;
  bb_break_up : list bool;
  bb_break_dn : list bool
}.

(** What [df.iterrows()] yields for one index value. *)
Record row : Type := mk_row {
  r_kline : Kline.t;
  r_ma5 : float;
  r_ema12 : float;
  r_ema26 : float;
  r_macd_dif : float;
  r_macd_dea : float;
  r_macd_osc : float;
  r_bb_ma20 : float;
  r_bb_std20 : float;
  r_bb_upper20 : float;
  r_bb_lower20 : float;
  r_bb_width20 : float;
  r_bb_pos20 : float;
  r_bb_break_up : bool;
  r_bb_break_dn : bool
}.

Definition row_at (df : t) (i : nat) : option row :=
  k ← kline df !! i;
  c1 ← ma5 df !! i;
  c2 ← ema12 df !! i;
  c3 ← ema26 df !! i;
  c4 ← macd_dif df !! i;
  c5 ← macd_dea df !! i;
  c6 ← macd_osc df !! i;
  c7 ← bb_ma20 df !! i;
  c8 ← bb_std20 df !! i;
  c9 ← bb_upper20 df !! i;
  c10 ← bb_lower20 df !! i;
  c11 ← bb_width20 df !! i;
  c12 ← bb_pos20 df !! i;
  c13 ← bb_break_up df !! i;
  c14 ← bb_break_dn df !! i;
  Some (mk_row k c1 c2 c3 c4 c5 c6 c7 c8 c9 c10 c11 c12 c13 c14).

(** The rows of the frame in index order, the index being [0 .. n-1]. *)
Definition iterrows (df : t) : list row :=
  omap (row_at df) (seq 0 (length (kline df))).

(** [df.empty] *)
Definition empty (df : list Kline.t) : bool :=
  match df with [] => true | _ :: _ => false end.

End DF.

(** ** [DailyFeatureETL.calculate_features] *)

(** [df['close']]: a NULL close is NaN in the frame. *)
Definition close_column (df : list Kline.t) : series := Kline.close <$> df.

Definition epsilon : Q := 1 # 1000000000.

Definition calculate_features `{!Sqrt} (stock_id : string) (df : list Kline.t) : DF.t :=
  let close := close_column df in
  let ma5 := rolling 5 mean close in
  let ema12 := ewm_mean 12 close in
  let ema26 := ewm_mean 26 close in
  let macd_dif := ssub ema12 ema26 in
  let macd_dea := ewm_mean 9 macd_dif in
  let macd_osc := ssub macd_dif macd_dea in
  let bb_ma20 := rolling 20 mean close in
  let bb_std20 := rolling 20 std close in
  let bb_upper20 := sadd bb_ma20 (smul_scalar 2 bb_std20) in
  let bb_lower20 := ssub bb_ma20 (smul_scalar 2 bb_std20) in
  let bb_width20 := ssub bb_upper20 bb_lower20 in
  let bb_pos20 := sdiv (ssub close bb_lower20) (sadd_scalar bb_width20 epsilon) in
  let bb_break_up := sgt close bb_upper20 in
  let bb_break_dn := slt close bb_lower20 in
  DF.mk df ma5 ema12 ema26 macd_dif macd_dea macd_osc bb_ma20 bb_std20
        bb_upper20 bb_lower20 bb_width20 bb_pos20 bb_break_up bb_break_dn.

(** ** The rows of the feature table ([postgres_daily_features_orm.py]) *)

Module FeatureDaily.

(** One dict built by [etl_by_stock], with the columns of [FeatureDaily].
    [None] is Python's [None] (SQL NULL). *)
Record t : Type := mk {
  stock_id : string;
  trade_date : Z;
  ma5 : option Q;
  ema12 : option Q;
  ema26 : option Q;
  macd_dif : option Q;
  macd_dea : option Q;
  macd_osc : option Q;
  bb_ma20 : option Q;
  bb_std20 : option Q;
  bb_upper20 : option Q;
  bb_lower20 : option Q;
  bb_width20 : option Q;
  bb_pos20 : option Q;
  bb_break_up : option bool;
  bb_break_dn : option bool;
  etl_run_id : string;
  source_version : option string;
  commit_sha : option string;
  created_at : Z;
  updated_at : Z
}.

(** The primary key [(stock_id, trade_date)]. *)
Definition key (r : t) : string * Z := (stock_id r, trade_date r).

End FeatureDaily.

(** ** The world: database, clock, log *)

Inductive exn : Type :=
  | DatabaseError (msg : string)
  | CardinalityViolation
  | OverflowError
  | ValueError
  | TypeError.

Inductive Result (A : Type) : Type :=
  | Ok (a : A)
  | Raise (e : exn).
Arguments Ok {A} a.
Arguments Raise {A} e.

Inductive log_event : Type :=
  | InfoFetching (stock_id : string) (start_date : option date_text) (end_date : option date)
  | InfoFetched (n : nat) (stock_id : string)
  | WarnNoKline (stock_id : string)
  | InfoFinished (stock_id : string) (end_date : option date) (n : nat)
  | InfoBatchStart (start_date end_date : option date)
  | InfoBatchFinished (n : nat)
  | InfoUpsertEmpty
  | InfoUpserted (rowcount : nat)
  | ErrorUpsertFailed (e : exn).

(** What the database is asked to do, in order. *)
Inductive db_op : Type :=
  | OpSelectKline (stock_id : string) (start_date end_date : option date_text)
  | OpSelectStockIds
  | OpExecuteUpsert (rows : list FeatureDaily.t)
  | OpCommit
  | OpRollback
  | OpClose.

Record World : Type := mkWorld {
  kline_table : list Kline.t;
  stock_info : list string;
  (** committed content of the feature table, by primary key *)
  feature_daily : gmap (string * Z) FeatureDaily.t;
  (** the open transaction of the current session, if any *)
  pending : option (gmap (string * Z) FeatureDaily.t);
  (** a fault the database raises at its next write, one entry per
      [execute] or [commit] still to come *)
  faults : list (option exn);
  (** what the database reads in the text [Unpadded d]: a date, or the
      error it answers the query with *)
  unpadded_reading : date -> Result date;
  (** [datetime.now()]: the k-th reading is [clock k] *)
  clock : nat -> Z;
  ticks : nat;
  (** [uuid.uuid4()]: the k-th draw is [uuid_source k] *)
  uuid_source : nat -> string;
  uuid_draws : nat;
  db_trace : list db_op;
  log : list log_event
}.

(** State and exceptions. *)
Definition M (A : Type) : Type := World -> Result A * World.

Definition ret {A} (a : A) : M A := fun w => (Ok a, w).

Definition bind {A B} (m : M A) (k : A -> M B) : M B :=
  fun w =>
    match m w with
    | (Ok a, w') => k a w'
    | (Raise e, w') => (Raise e, w')
    end.

Definition raise {A} (e : exn) : M A := fun w => (Raise e, w).

Declare Scope etl_scope.
Delimit Scope etl_scope with etl.
Notation "x <- m ;; k" := (bind m (fun x => k))
  (at level 100, m at next level, right associativity) : etl_scope.
Notation "m ;;; k" := (bind m (fun _ => k))
  (at level 100, right associativity) : etl_scope.
Open Scope etl_scope.

(** [try: body except Exception as e: handler e] *)
Definition try_except {A} (body : M A) (handler : exn -> M A) : M A :=
  fun w =>
    match body w with
    | (Ok a, w') => (Ok a, w')
    | (Raise e, w') => handler e w'
    end.

(** [try: body finally: fin] *)
Definition try_finally {A} (body : M A) (fin : M unit) : M A :=
  fun w =>
    match body w with
    | (r, w') =>
        match fin w' with
        | (Ok _, w'') => (r, w'')
        | (Raise e, w'') => (Raise e, w'')
        end
    end.

Fixpoint mapM {A B} (f : A -> M B) (l : list A) : M (list B) :=
  match l with
  | [] => ret []
  | x :: rest => y <- f x ;; ys <- mapM f rest ;; ret (y :: ys)
  end.

(** Field updates of the world. *)
Definition set_log (l : list log_event) (w : World) : World :=
  mkWorld (kline_table w) (stock_info w) (feature_daily w) (pending w)
          (faults w) (unpadded_reading w) (clock w) (ticks w)
          (uuid_source w) (uuid_draws w) (db_trace w) l.

Definition set_db_trace (t : list db_op) (w : World) : World :=
  mkWorld (kline_table w) (stock_info w) (feature_daily w) (pending w)
          (faults w) (unpadded_reading w) (clock w) (ticks w)
          (uuid_source w) (uuid_draws w) t (log w).

Definition set_ticks (n : nat) (w : World) : World :=
  mkWorld (kline_table w) (stock_info w) (feature_daily w) (pending w)
          (faults w) (unpadded_reading w) (clock w) n
          (uuid_source w) (uuid_draws w) (db_trace w) (log w).

Definition set_uuid_draws (n : nat) (w : World) : World :=
  mkWorld (kline_table w) (stock_info w) (feature_daily w) (pending w)
          (faults w) (unpadded_reading w) (clock w) (ticks w)
          (uuid_source w) n (db_trace w) (log w).

Definition set_faults (f : list (option exn)) (w : World) : World :=
  mkWorld (kline_table w) (stock_info w) (feature_daily w) (pending w)
          f (unpadded_reading w) (clock w) (ticks w)
          (uuid_source w) (uuid_draws w) (db_trace w) (log w).

Definition set_pending (p : option (gmap (string * Z) FeatureDaily.t)) (w : World) : World :=
  mkWorld (kline_table w) (stock_info w) (feature_daily w) p
          (faults w) (unpadded_reading w) (clock w) (ticks w)
          (uuid_source w) (uuid_draws w) (db_trace w) (log w).

Definition set_feature_daily (t : gmap (string * Z) FeatureDaily.t) (w : World) : World :=
  mkWorld (kline_table w) (stock_info w) t (pending w)
          (faults w) (unpadded_reading w) (clock w) (ticks w)
          (uuid_source w) (uuid_draws w) (db_trace w) (log w).

Definition set_kline_table (t : list Kline.t) (w : World) : World :=
  mkWorld t (stock_info w) (feature_daily w) (pending w)
          (faults w) (unpadded_reading w) (clock w) (ticks w)
          (uuid_source w) (uuid_draws w) (db_trace w) (log w).

Definition logger (ev : log_event) : M unit :=
  fun w => (Ok tt, set_log (log w ++ [ev]) w).

Definition trace (op : db_op) : M unit :=
  fun w => (Ok tt, set_db_trace (db_trace w ++ [op]) w).

(** [datetime.now()] *)
Definition datetime_now : M Z :=
  fun w => (Ok (clock w (ticks w)), set_ticks (S (ticks w)) w).

(** [uuid.uuid4()] *)
Definition uuid4 : M string :=
  fun w => (Ok (uuid_source w (uuid_draws w)), set_uuid_draws (S (uuid_draws w)) w).

(** ** Sessions *)

(** [SessionLocal()]: a new session, with no transaction yet. *)
Definition SessionLocal : M unit :=
  fun w => (Ok tt, set_pending None w).

(** [session.close()]: an open transaction is abandoned. *)
Definition session_close : M unit :=
  trace OpClose ;;; fun w => (Ok tt, set_pending None w).

(** [session.rollback()] *)
Definition session_rollback : M unit :=
  trace OpRollback ;;; fun w => (Ok tt, set_pending None w).

(** The next entry of [faults], consumed by a write. *)
Definition next_fault : M (option exn) :=
  fun w =>
    match faults w with
    | [] => (Ok None, w)
    | f :: rest => (Ok f, set_faults rest w)
    end.

(** [session.commit()]: the open transaction becomes the content of the
    table, unless the database fails. *)
Definition session_commit : M unit :=
  trace OpCommit ;;;
  f <- next_fault ;;
  match f with
  | Some e => raise e
  | None =>
      fun w => (Ok tt,
                set_pending None
                  (set_feature_daily (default (feature_daily w) (pending w)) w))
  end.

(** ** [get_kline] and [get_all_stock_ids] *)

Definition date_le (a b : Kline.t) : Prop := (Kline.date a <= Kline.date b)%Z.

Global Instance date_le_dec : RelDecision date_le.
Proof. intros a b. unfold date_le. apply _. Defined.

(** The query of [get_kline], once the database has read the bounds.  Rows
    of equal date come in the order of the table (the order SQL leaves
    open). *)
Definition select_kline (table : list Kline.t) (stock_id : string)
    (start_date end_date : option date) : list Kline.t :=
  let query := filter (fun k => Kline.stock_id k = stock_id) table in
  let query :=
    match start_date with
    | Some s => filter (fun k => (s <= Kline.date k)%Z) query
    | None => query
    end in
  let query :=
    match end_date with
    | Some e => filter (fun k => (Kline.date k <= e)%Z) query
    | None => query
    end in
  merge_sort date_le query.

(** The date the database reads in a text. *)
Definition read_date_text (t : date_text) : M date :=
  match t with
  | Iso d => ret d
  | Unpadded d => fun w => (unpadded_reading w d, w)
  end.

(** A bound of the query: [None] adds no filter. *)
Definition read_bound (b : option date_text) : M (option date) :=
  match b with
  | Some t => d <- read_date_text t ;; ret (Some d)
  | None => ret None
  end.

Definition get_kline (stock_id : string) (start_date end_date : option date_text)
    : M (list Kline.t) :=
  SessionLocal ;;;
  try_finally
    (trace (OpSelectKline stock_id start_date end_date) ;;;
     lo <- read_bound start_date ;;
     hi <- read_bound end_date ;;
     fun w => (Ok (select_kline (kline_table w) stock_id lo hi), w))
    session_close.

Definition get_all_stock_ids : M (list string) :=
  SessionLocal ;;;
  try_finally
    (trace OpSelectStockIds ;;; fun w => (Ok (stock_info w), w))
    session_close.

(** ** [DailyFeatureETL] ([postgres_daily_features_etl.py]) *)

Module DailyFeatureETL.

Record t : Type := mk {
  etl_run_id : string;
  source_version : option string;
  commit_sha : option string
}.

End DailyFeatureETL.

(** [__init__]: [self.etl_run_id = etl_run_id or uuid.uuid4()] *)
Definition DailyFeatureETL_init (etl_run_id source_version commit_sha : option string)
    : M DailyFeatureETL.t :=
  run_id <- match etl_run_id with
            | Some s => if decide (s = "") then uuid4 else ret s
            | None => uuid4
            end ;;
  ret (DailyFeatureETL.mk run_id source_version commit_sha).

(** [None if pd.isnull(v) else v] *)
Definition none_if_null (v : float) : option Q :=
  if isnull v then None else v.

(** [bool(v) if not pd.isnull(v) else None] *)
Definition bool_unless_null (v : bool) : option bool :=
  if negb (isnull_bool v) then Some v else None.

(** The dict appended to [result] for one row of the frame, given the two
    readings of the clock. *)
Definition make_dict (self : DailyFeatureETL.t) (stock_id : string) (row : DF.row)
    (created_at updated_at : Z) : FeatureDaily.t :=
  FeatureDaily.mk
    stock_id
    (Kline.date (DF.r_kline row))
    (none_if_null (DF.r_ma5 row))
    (none_if_null (DF.r_ema12 row))
    (none_if_null (DF.r_ema26 row))
    (none_if_null (DF.r_macd_dif row))
    (none_if_null (DF.r_macd_dea row))
    (none_if_null (DF.r_macd_osc row))
    (none_if_null (DF.r_bb_ma20 row))
    (none_if_null (DF.r_bb_std20 row))
    (none_if_null (DF.r_bb_upper20 row))
    (none_if_null (DF.r_bb_lower20 row))
    (none_if_null (DF.r_bb_width20 row))
    (none_if_null (DF.r_bb_pos20 row))
    (bool_unless_null (DF.r_bb_break_up row))
    (bool_unless_null (DF.r_bb_break_dn row))
    (DailyFeatureETL.etl_run_id self)
    (DailyFeatureETL.source_version self)
    (DailyFeatureETL.commit_sha self)
    created_at
    updated_at.

(** One turn of the loop over [df.iterrows()]: the values of the dict are
    evaluated in the order they are written, [datetime.now()] once for
    [created_at] and once more for [updated_at]. *)
Definition shape_row (self : DailyFeatureETL.t) (stock_id : string) (row : DF.row)
    : M FeatureDaily.t :=
  created_at <- datetime_now ;;
  updated_at <- datetime_now ;;
  ret (make_dict self stock_id row created_at updated_at).

Definition max_window : Z := 30.

(** [datetime.strptime(s, "%Y-%m-%d")]: the day the text names; a text
    that names no day of the calendar is refused, and so is [None]. *)
Definition strptime (s : option date) : M Z :=
  match s with
  | Some d =>
      if bool_decide (min_ordinal <= d <= max_ordinal)%Z then ret d
      else raise ValueError
  | None => raise TypeError
  end.

(** [dt - timedelta(days=days)] *)
Definition sub_timedelta (dt days : Z) : M Z :=
  if bool_decide (min_ordinal <= dt - days <= max_ordinal)%Z then ret (dt - days)%Z
  else raise OverflowError.

(** [dt.strftime("%Y-%m-%d")] *)
Definition strftime (dt : Z) : date_text :=
  if bool_decide (ordinal_year_1000 <= dt)%Z then Iso dt else Unpadded dt.

Definition etl_by_stock `{!Sqrt} (self : DailyFeatureETL.t) (stock_id : string)
    (start_date end_date : option date) : M (list FeatureDaily.t) :=
  df <-
    (if bool_decide (start_date = end_date) && bool_decide (start_date <> None) then
       start_dt <- strptime start_date ;;
       start_dt_adj <- sub_timedelta start_dt (max_window - 1) ;;
       let start_date_adj := Some (strftime start_dt_adj) in
       logger (InfoFetching stock_id start_date_adj end_date) ;;;
       kline_objs <- get_kline stock_id start_date_adj (Iso <$> end_date) ;;
       logger (InfoFetched (length kline_objs) stock_id) ;;;
       ret kline_objs
     else
       logger (InfoFetching stock_id (Iso <$> start_date) end_date) ;;;
       kline_objs <- get_kline stock_id (Iso <$> start_date) (Iso <$> end_date) ;;
       logger (InfoFetched (length kline_objs) stock_id) ;;;
       ret kline_objs) ;;
  if DF.empty df then
    logger (WarnNoKline stock_id) ;;;
    ret []
  else
    let df := calculate_features stock_id df in
    result <- mapM (shape_row self stock_id) (DF.iterrows df) ;;
    logger (InfoFinished stock_id end_date (length result)) ;;;
    ret result.

Fixpoint etl_each `{!Sqrt} (self : DailyFeatureETL.t) (stock_ids : list string)
    (start_date end_date : option date) (all_results : list FeatureDaily.t)
    : M (list FeatureDaily.t) :=
  match stock_ids with
  | [] => ret all_results
  | stock_id :: rest =>
      result <- etl_by_stock self stock_id start_date end_date ;;
      etl_each self rest start_date end_date (all_results ++ result)
  end.

Definition etl_all_stocks `{!Sqrt} (self : DailyFeatureETL.t)
    (start_date end_date : option date) : M (list FeatureDaily.t) :=
  stock_ids <- get_all_stock_ids ;;
  logger (InfoBatchStart start_date end_date) ;;;
  all_results <- etl_each self stock_ids start_date end_date [] ;;
  logger (InfoBatchFinished (length all_results)) ;;;
  ret all_results.

(** ** [FeatureDaily.bulk_upsert_to_db] *)

(** [INSERT ... ON CONFLICT (stock_id, trade_date) DO UPDATE SET] every
    other column to the incoming value. *)
Definition merge_rows (rows : list FeatureDaily.t)
    (table : gmap (string * Z) FeatureDaily.t) : gmap (string * Z) FeatureDaily.t :=
  foldl (fun m r => <[FeatureDaily.key r := r]> m) table rows.

(** [session.execute(stmt)]: the statement runs in the transaction of the
    session.  PostgreSQL refuses a statement that would touch one key twice;
    the database may also fail on its own. *)
Definition session_execute (rows : list FeatureDaily.t) : M nat :=
  trace (OpExecuteUpsert rows) ;;;
  f <- next_fault ;;
  match f with
  | Some e => raise e
  | None =>
      if bool_decide (NoDup (FeatureDaily.key <$> rows)) then
        fun w => (Ok (length rows),
                  set_pending
                    (Some (merge_rows rows (default (feature_daily w) (pending w)))) w)
      else raise CardinalityViolation
  end.

Definition bulk_upsert_to_db (dict_list : list FeatureDaily.t) : M nat :=
  match dict_list with
  | [] =>
      logger InfoUpsertEmpty ;;;
      ret 0%nat
  | _ :: _ =>
      SessionLocal ;;;
      try_finally
        (try_except
           (rowcount <- session_execute dict_list ;;
            session_commit ;;;
            logger (InfoUpserted rowcount) ;;;
            ret rowcount)
           (fun e =>
              session_rollback ;;;
              logger (ErrorUpsertFailed e) ;;;
              raise e))
        session_close
  end.

(** ** What [etl_by_stock] fetches and returns, as pure functions *)

(** The day [d] is one a single-day request can pad from: the day 29 days
    before it is in year 1000 or later (from 1000-01-30 on), and [d] is a
    day of the calendar. *)
Definition pads_in_range (d : date) : Prop :=
  (ordinal_year_1000 + 29 <= d <= max_ordinal)%Z.

Global Instance pads_in_range_dec d : Decision (pads_in_range d).
Proof. unfold pads_in_range. apply _. Defined.

(** A request that is not for a single day, or is for a day in that range. *)
Definition request_in_range (start_date end_date : option date) : Prop :=
  forall d, start_date = Some d -> end_date = Some d -> pads_in_range d.

(** The first day of the window fetched for a request in range. *)
Definition fetch_start (start_date end_date : option date) : option date :=
  match start_date with
  | Some d => if decide (start_date = end_date) then Some (d - 29)%Z else start_date
  | None => None
  end.

(** The lower bound of the query as the database reads it, or the error that
    ends the call before a bar is fetched, for any request. *)
Definition lower_bound (w : World) (start_date end_date : option date)
    : Result (option date) :=
  match start_date with
  | Some d =>
      if decide (start_date = end_date) then
        if decide (min_ordinal <= d <= max_ordinal)%Z then
          if decide (min_ordinal <= d - 29)%Z then
            if decide (ordinal_year_1000 <= d - 29)%Z then Ok (Some (d - 29)%Z)
            else
              match unpadded_reading w (d - 29)%Z with
              | Ok d' => Ok (Some d')
              | Raise e => Raise e
              end
          else Raise OverflowError
        else Raise ValueError
      else Ok start_date
  | None => Ok None
  end.

(** The dicts of the rows, the clock being read at [t], [t+1], ... *)
Fixpoint dicts_from (self : DailyFeatureETL.t) (stock_id : string)
    (clk : nat -> Z) (t : nat) (rows : list DF.row) : list FeatureDaily.t :=
  match rows with
  | [] => []
  | row :: rest =>
      make_dict self stock_id row (clk t) (clk (S t))
      :: dicts_from self stock_id clk (S (S t)) rest
  end.

(** The bars of a stock between two bounds, both included; a missing bound
    does not restrict. *)
Definition in_window (stock_id : string) (lo hi : option date) (k : Kline.t) : Prop :=
  Kline.stock_id k = stock_id /\
  from_option (fun s => (s <= Kline.date k)%Z) True lo /\
  from_option (fun e => (Kline.date k <= e)%Z) True hi.

Global Instance in_window_dec stock_id lo hi k : Decision (in_window stock_id lo hi k).
Proof. unfold in_window. destruct lo, hi; simpl; apply _. Defined.

(** Every column of the frame has [n] cells. *)
Record aligned (n : nat) (df : DF.t) : Prop := mk_aligned {
  al_kline : length (DF.kline df) = n;
  al_ma5 : length (DF.ma5 df) = n;
  al_ema12 : length (DF.ema12 df) = n;
  al_ema26 : length (DF.ema26 df) = n;
  al_macd_dif : length (DF.macd_dif df) = n;
  al_macd_dea : length (DF.macd_dea df) = n;
  al_macd_osc : length (DF.macd_osc df) = n;
  al_bb_ma20 : length (DF.bb_ma20 df) = n;
  al_bb_std20 : length (DF.bb_std20 df) = n;
  al_bb_upper20 : length (DF.bb_upper20 df) = n;
  al_bb_lower20 : length (DF.bb_lower20 df) = n;
  al_bb_width20 : length (DF.bb_width20 df) = n;
  al_bb_pos20 : length (DF.bb_pos20 df) = n;
  al_bb_break_up : length (DF.bb_break_up df) = n;
  al_bb_break_dn : length (DF.bb_break_dn df) = n
}.

(** ** Sample inputs *)

(** A square root to nine decimal places (rounded down), for the examples;
    none of them depends on its digits. *)
Definition sqrt_to_nine_decimals : Sqrt :=
  fun q => Z.sqrt (Qnum q * 10 ^ 18 / Z.pos (Qden q)) # 1000000000.

(** A bar with every column filled. *)
Definition bar (stock_id : string) (d : Z) (c : Q) : Kline.t :=
  Kline.mk 0 stock_id d (Some 0%Z) (Some 0%Z) (Some c) (Some c) (Some c) (Some c)
           (Some 0%Q) (Some 0%Z).

(** A bar whose nullable columns are all NULL. *)
Definition null_bar (stock_id : string) (d : Z) : Kline.t :=
  Kline.mk 0 stock_id d None None None None None None None None.

(** The five closes 10, 12, 11, 13, 14 on the days 2024-01-01 (ordinal
    738886) to 2024-01-05. *)
Definition five_bars : list Kline.t :=
  [bar "X" 738886 10; bar "X" 738887 12; bar "X" 738888 11; bar "X" 738889 13;
   bar "X" 738890 14].

(** The closes 1, 2, NULL, 4, 5, 6, 7, 8. *)
Definition bars_with_null_close : list Kline.t :=
  [bar "X" 738886 1; bar "X" 738887 2; null_bar "X" 738888; bar "X" 738889 4;
   bar "X" 738890 5; bar "X" 738891 6; bar "X" 738892 7; bar "X" 738893 8].

(** A NULL close on the first day, then the closes 2 and 3. *)
Definition bars_with_leading_null : list Kline.t :=
  [null_bar "X" 738886; bar "X" 738887 2; bar "X" 738888 3].

Definition sample_etl : DailyFeatureETL.t :=
  DailyFeatureETL.mk "5f0c3d1e-8a2b-4c6d-9e7f-0123456789ab" None None.

(** A world over a kline table: the feature table is empty, the clock reads
    0, 1, 2, ..., and the database refuses a date text with a short year. *)
Definition world_of (table : list Kline.t) (faults : list (option exn)) : World :=
  mkWorld table ["X"] ∅ None faults
          (fun _ => Raise (DatabaseError "invalid input syntax for type date"))
          Z.of_nat 0 (fun _ => "0b9d6c1a-4e2f-4a7b-8c3d-5e6f708192a3") 0 [] [].

(** Two bars, on 2023-12-31 and on the requested day 2024-01-01. *)
Definition two_days : World :=
  world_of [bar "X" 738885 10; bar "X" 738886 11] [].

(** Two bars on the same day. *)
Definition duplicate_day : World :=
  world_of [bar "X" 738886 10; bar "X" 738886 11] [].

Definition one_day : World := world_of [bar "X" 738886 10] [].

(** A dict of the stock "X" for the day [d], with no indicator yet. *)
Definition sample_dict (d : Z) : FeatureDaily.t :=
  FeatureDaily.mk "X" d None None None None None None None None None None None None
                  None None "5f0c3d1e-8a2b-4c6d-9e7f-0123456789ab" None None 0 0.

(** A call has left the tables, the clock and the other sources of the
    world as they were; the session, the readings of the clock, the trace and
    the log are what a call may change. *)
Definition same_data (w w' : World) : Prop :=
  kline_table w' = kline_table w /\
  stock_info w' = stock_info w /\
  feature_daily w' = feature_daily w /\
  faults w' = faults w /\
  unpadded_reading w' = unpadded_reading w /\
  clock w' = clock w /\
  uuid_source w' = uuid_source w /\
  uuid_draws w' = uuid_draws w.

(** * Properties *)

Section properties.
Context {root : Sqrt}.

(** ** Columns keep the length of the frame *)

Lemma length_rolling w agg xs : length (rolling w agg xs) = length xs.
Proof. unfold rolling. by rewrite length_fmap, length_seq. Qed.

Lemma length_ewm_go alpha weighted old_wt xs :
  length (ewm_go alpha weighted old_wt xs) = length xs.
Proof.
  revert weighted old_wt.
  induction xs as [|cur rest IH]; intros weighted old_wt; simpl; [done|].
  destruct weighted as [wv|]; [destruct cur as [c|]|]; simpl; by rewrite IH.
Qed.

Lemma length_ewm_mean span xs : length (ewm_mean span xs) = length xs.
Proof. destruct xs as [|x rest]; simpl; [done|]. by rewrite length_ewm_go. Qed.

Lemma length_close_column df : length (close_column df) = length df.
Proof. unfold close_column. by rewrite length_fmap. Qed.

Lemma length_zip_same {A B C} (f : A -> B -> C) (a : list A) (b : list B) (n : nat) :
  length a = n -> length b = n -> length (zip_with f a b) = n.
Proof. intros Ha Hb. rewrite length_zip_with. lia. Qed.

Ltac col_length :=
  repeat first
    [ progress rewrite ?length_rolling, ?length_ewm_mean, ?length_close_column,
        ?length_fmap
    | apply length_zip_same
    | reflexivity ].

Lemma calculate_features_aligned stock_id df :
  aligned (length df) (calculate_features stock_id df).
Proof.
  unfold calculate_features, ssub, sadd, sdiv, sgt, slt, smul_scalar, sadd_scalar.
  split; simpl; col_length.
Qed.

Lemma row_at_is_Some n df i : aligned n df -> i < n -> is_Some (DF.row_at df i).
Proof.
  intros [] Hi. unfold DF.row_at.
  repeat match goal with
  | H : length ?l = n |- context [ ?l !! i ] =>
      let x := fresh "x" in let E := fresh "E" in
      destruct (lookup_lt_is_Some_2 l i ltac:(lia)) as [x E];
      rewrite E; simpl; clear H
  end.
  eauto.
Qed.

Lemma row_at_kline df i r : DF.row_at df i = Some r -> DF.kline df !! i = Some (DF.r_kline r).
Proof.
  unfold DF.row_at. intros H.
  destruct (DF.kline df !! i) as [k|]; simpl in H; [|done].
  repeat match type of H with
  | context [ ?l !! i ] => destruct (l !! i); simpl in H; [|done]
  end.
  by inversion H.
Qed.

Lemma length_omap_total {A B} (f : A -> option B) (l : list A) :
  (forall x, x ∈ l -> is_Some (f x)) -> length (omap f l) = length l.
Proof.
  induction l as [|x l IH]; intros H; simpl; [done|].
  destruct (H x) as [y ->]; [by left|]. simpl. f_equal.
  apply IH. intros z Hz. apply H. by right.
Qed.

Lemma lookup_omap_total {A B} (f : A -> option B) (l : list A) (i : nat) :
  (forall x, x ∈ l -> is_Some (f x)) -> omap f l !! i = l !! i ≫= f.
Proof.
  revert i. induction l as [|x l IH]; intros i H; simpl; [done|].
  destruct (H x) as [y Hy]; [by left|]. rewrite Hy.
  destruct i as [|i]; simpl; [done|].
  apply IH. intros z Hz. apply H. by right.
Qed.

Lemma iterrows_lookup n df i r :
  aligned n df ->
  DF.iterrows df !! i = Some r <-> i < n /\ DF.row_at df i = Some r.
Proof.
  intros Hal. unfold DF.iterrows. rewrite (al_kline _ _ Hal).
  rewrite lookup_omap_total.
  - destruct (decide (i < n)) as [Hi|Hi].
    + rewrite lookup_seq_lt by done. simpl. tauto.
    + rewrite lookup_seq_ge by lia. simpl. split; [done|]. intros [? _]. lia.
  - intros j Hj. apply elem_of_seq in Hj. eapply row_at_is_Some; [done|lia].
Qed.

Lemma length_iterrows n df : aligned n df -> length (DF.iterrows df) = n.
Proof.
  intros Hal. unfold DF.iterrows. rewrite (al_kline _ _ Hal).
  rewrite length_omap_total; [by rewrite length_seq|].
  intros j Hj. apply elem_of_seq in Hj. eapply row_at_is_Some; [done|lia].
Qed.

Lemma iterrows_kline stock_id df :
  DF.r_kline <$> DF.iterrows (calculate_features stock_id df) = df.
Proof.
  pose proof (calculate_features_aligned stock_id df) as Hal.
  apply list_eq. intros i. rewrite list_lookup_fmap.
  destruct (DF.iterrows (calculate_features stock_id df) !! i) as [r|] eqn:E; simpl.
  - apply (iterrows_lookup _ _ _ _ Hal) in E as [_ E].
    apply row_at_kline in E. by rewrite <- E.
  - symmetry. apply lookup_ge_None.
    apply lookup_ge_None in E. by rewrite (length_iterrows _ _ Hal) in E.
Qed.

(** C4: the engine returns a frame with exactly one row per input row, in
    the order of the input: every column it adds has the length of the input,
    the kline columns come back unchanged, and iterating over the result
    visits the input rows one by one.  The function is total, so it returns
    for every series, the short ones and the empty one included; the empty
    series gives the empty result. *)
Theorem C4_one_output_row_per_input_row (stock_id : string) (df : list Kline.t) :
  aligned (length df) (calculate_features stock_id df) /\
  DF.kline (calculate_features stock_id df) = df /\
  length (DF.iterrows (calculate_features stock_id df)) = length df /\
  DF.r_kline <$> DF.iterrows (calculate_features stock_id df) = df /\
  DF.iterrows (calculate_features stock_id []) = [].
Proof.
  pose proof (calculate_features_aligned stock_id df) as Hal.
  split; [done|]. split; [done|].
  split; [by apply length_iterrows|].
  split; [apply iterrows_kline | reflexivity].
Qed.

(** ** Rolling windows *)

Lemma rolling_lookup w agg (xs : series) i :
  i < length xs ->
  rolling w agg xs !! i =
    Some (if decide (w <= length (observations (window w i xs)))
          then agg (observations (window w i xs)) else NaN).
Proof.
  intros Hi. unfold rolling.
  by rewrite list_lookup_fmap, lookup_seq_lt.
Qed.

Lemma length_observations (win : list float) :
  length (observations win) <= length win.
Proof.
  unfold observations. induction win as [|[x|] win IH]; cbn in *; lia.
Qed.

Lemma length_window w i (xs : series) : length (window w i xs) <= S i.
Proof. unfold window. rewrite length_drop, length_take. lia. Qed.

(** Until [w] rows are in the window the aggregate is NaN. *)
Lemma rolling_warmup w agg (xs : series) i :
  i < length xs -> S i < w -> rolling w agg xs !! i = Some NaN.
Proof.
  intros Hi Hw. rewrite rolling_lookup by done.
  pose proof (length_observations (window w i xs)).
  pose proof (length_window w i xs).
  case_decide; [lia|done].
Qed.

(** The window of the close column is the closes of the rows of the window. *)
Lemma window_close_column w i df :
  window w i (close_column df) = Kline.close <$> drop (S i - w) (take (S i) df).
Proof. unfold window, close_column. by rewrite <- fmap_take, <- fmap_drop. Qed.

(** Five consecutive rows ending at row [i]. *)
Lemma trailing_five {A} (l : list A) i :
  4 <= i -> i < length l ->
  exists k0 k1 k2 k3 k4,
    l !! (i - 4) = Some k0 /\ l !! (i - 3) = Some k1 /\ l !! (i - 2) = Some k2 /\
    l !! (i - 1) = Some k3 /\ l !! i = Some k4 /\
    drop (S i - 5) (take (S i) l) = [k0; k1; k2; k3; k4].
Proof.
  intros H4 Hi.
  destruct (lookup_lt_is_Some_2 l (i - 4) ltac:(lia)) as [k0 E0].
  destruct (lookup_lt_is_Some_2 l (i - 3) ltac:(lia)) as [k1 E1].
  destruct (lookup_lt_is_Some_2 l (i - 2) ltac:(lia)) as [k2 E2].
  destruct (lookup_lt_is_Some_2 l (i - 1) ltac:(lia)) as [k3 E3].
  destruct (lookup_lt_is_Some_2 l i ltac:(lia)) as [k4 E4].
  exists k0, k1, k2, k3, k4. repeat (split; [done|]).
  apply list_eq. intros j. rewrite lookup_drop.
  destruct (decide (j < 5)) as [Hj|Hj].
  - rewrite lookup_take_lt by lia.
    replace (S i - 5) with (i - 4) by lia.
    destruct j as [|[|[|[|[|j]]]]]; simpl; [| | | | |lia].
    + by rewrite Nat.add_0_r.
    + by replace (i - 4 + 1) with (i - 3) by lia.
    + by replace (i - 4 + 2) with (i - 2) by lia.
    + by replace (i - 4 + 3) with (i - 1) by lia.
    + by replace (i - 4 + 4) with i by lia.
  - rewrite lookup_take_ge by lia.
    destruct j as [|[|[|[|[|j]]]]]; simpl; try lia. done.
Qed.

Lemma mean_of_five (a b c d e : Q) :
  exists m, mean [a; b; c; d; e] = Some m /\ (m == (a + b + c + d + e) / 5)%Q.
Proof.
  eexists. split; [reflexivity|].
  unfold Qsum, Qlen. simpl. field.
Qed.

(** [ma5] at a row with four predecessors, by the closes of the five rows:
    their mean when all five are numbers, NaN as soon as one is NULL. *)
Lemma ma5_of_window stock_id df i k0 k1 k2 k3 k4 :
  i < length df ->
  drop (S i - 5) (take (S i) df) = [k0; k1; k2; k3; k4] ->
  DF.ma5 (calculate_features stock_id df) !! i =
    Some (match Kline.close k0, Kline.close k1, Kline.close k2,
                Kline.close k3, Kline.close k4 with
          | Some c0, Some c1, Some c2, Some c3, Some c4 => mean [c0; c1; c2; c3; c4]
          | _, _, _, _, _ => NaN
          end).
Proof.
  intros Hi E. simpl.
  rewrite rolling_lookup by (by rewrite length_close_column).
  rewrite window_close_column, E. simpl.
  by destruct (Kline.close k0), (Kline.close k1), (Kline.close k2),
             (Kline.close k3), (Kline.close k4).
Qed.

(** C5: [ma5] at a row with at least four predecessors is the arithmetic
    mean of the closes of that row and of the four before it, when these
    five closes are numbers (a close is a nullable column, and with a NULL
    close among the five [ma5] is NaN); it is NaN (null) at the first four
    rows; in a series of fewer than five rows it is NaN at every row. *)
Theorem C5_ma5_trailing_mean (stock_id : string) (df : list Kline.t) (i : nat)
    (Hi : i < length df) :
  (i < 4 -> DF.ma5 (calculate_features stock_id df) !! i = Some NaN) /\
  (4 <= i ->
     exists k0 k1 k2 k3 k4,
       df !! (i - 4) = Some k0 /\ df !! (i - 3) = Some k1 /\
       df !! (i - 2) = Some k2 /\ df !! (i - 1) = Some k3 /\ df !! i = Some k4 /\
       (forall c0 c1 c2 c3 c4 : Q,
          Kline.close k0 = Some c0 -> Kline.close k1 = Some c1 ->
          Kline.close k2 = Some c2 -> Kline.close k3 = Some c3 ->
          Kline.close k4 = Some c4 ->
          exists m,
            DF.ma5 (calculate_features stock_id df) !! i = Some (Some m) /\
            (m == (c0 + c1 + c2 + c3 + c4) / 5)%Q) /\
       (isnull (Kline.close k0) || isnull (Kline.close k1) ||
        isnull (Kline.close k2) || isnull (Kline.close k3) ||
        isnull (Kline.close k4) = true ->
        DF.ma5 (calculate_features stock_id df) !! i = Some NaN)) /\
  (length df < 5 -> DF.ma5 (calculate_features stock_id df) !! i = Some NaN).
Proof.
  split; [|split].
  - intros H. apply rolling_warmup; [by rewrite length_close_column|lia].
  - intros H.
    destruct (trailing_five df i H Hi) as (k0 & k1 & k2 & k3 & k4 & E0 & E1 & E2 & E3 & E4 & E).
    exists k0, k1, k2, k3, k4. repeat (split; [done|]).
    pose proof (ma5_of_window stock_id df i k0 k1 k2 k3 k4 Hi E) as Hma. split.
    + intros c0 c1 c2 c3 c4 C0 C1 C2 C3 C4.
      rewrite C0, C1, C2, C3, C4 in Hma.
      destruct (mean_of_five c0 c1 c2 c3 c4) as (m & Em & Hm).
      exists m. split; [|done]. rewrite <- Em. exact Hma.
    + intros Hnull.
      destruct (Kline.close k0), (Kline.close k1), (Kline.close k2),
               (Kline.close k3), (Kline.close k4); try done; exact Hma.
  - intros H. apply rolling_warmup; [by rewrite length_close_column|lia].
Qed.

(** ** Rows and columns *)

Lemma row_at_inv df i r :
  DF.row_at df i = Some r ->
  DF.kline df !! i = Some (DF.r_kline r) /\
  DF.ma5 df !! i = Some (DF.r_ma5 r) /\
  DF.ema12 df !! i = Some (DF.r_ema12 r) /\
  DF.ema26 df !! i = Some (DF.r_ema26 r) /\
  DF.macd_dif df !! i = Some (DF.r_macd_dif r) /\
  DF.macd_dea df !! i = Some (DF.r_macd_dea r) /\
  DF.macd_osc df !! i = Some (DF.r_macd_osc r) /\
  DF.bb_ma20 df !! i = Some (DF.r_bb_ma20 r) /\
  DF.bb_std20 df !! i = Some (DF.r_bb_std20 r) /\
  DF.bb_upper20 df !! i = Some (DF.r_bb_upper20 r) /\
  DF.bb_lower20 df !! i = Some (DF.r_bb_lower20 r) /\
  DF.bb_width20 df !! i = Some (DF.r_bb_width20 r) /\
  DF.bb_pos20 df !! i = Some (DF.r_bb_pos20 r) /\
  DF.bb_break_up df !! i = Some (DF.r_bb_break_up r) /\
  DF.bb_break_dn df !! i = Some (DF.r_bb_break_dn r).
Proof.
  unfold DF.row_at. intros H.
  destruct (DF.kline df !! i) as [k|]; simpl in H; [|done].
  repeat match type of H with
  | context [ ?l !! i ] => destruct (l !! i); simpl in H; [|done]
  end.
  inversion H; subst; simpl. repeat split.
Qed.

Lemma iterrows_row_at stock_id df i r :
  DF.iterrows (calculate_features stock_id df) !! i = Some r ->
  i < length df /\ DF.row_at (calculate_features stock_id df) i = Some r.
Proof.
  intros H0. by apply (iterrows_lookup _ _ _ _ (calculate_features_aligned stock_id df)).
Qed.

Lemma lookup_close_column df i :
  close_column df !! i = Kline.close <$> df !! i.
Proof. unfold close_column. by rewrite list_lookup_fmap. Qed.

Lemma zip_with_lookup_inv {A B C} (f : A -> B -> C) (a : list A) (b : list B) i x y z :
  a !! i = Some x -> b !! i = Some y -> zip_with f a b !! i = Some z -> z = f x y.
Proof.
  intros Ha Hb. rewrite lookup_zip_with, Ha, Hb. simpl. congruence.
Qed.

(** ** Exponential averages *)

(** Once the average is a number it stays one, whatever follows. *)
Lemma ewm_go_is_Some alpha wv old_wt (xs : series) :
  Forall is_Some (ewm_go alpha (Some wv) old_wt xs).
Proof.
  revert wv old_wt. induction xs as [|cur rest IH]; intros wv old_wt; simpl.
  - constructor.
  - destruct cur as [c|]; (constructor; [by eexists|apply IH]).
Qed.

(** The averages of a series whose first cell is a number are numbers. *)
Lemma ewm_mean_is_Some span (xs : series) :
  (forall x, head xs = Some x -> is_Some x) -> Forall is_Some (ewm_mean span xs).
Proof.
  destruct xs as [|x rest]; simpl; [constructor|].
  intros Hx. destruct (Hx x eq_refl) as [c ->].
  constructor; [by eexists|]. apply ewm_go_is_Some.
Qed.

Lemma ssub_is_Some (a b : series) :
  Forall is_Some a -> Forall is_Some b -> Forall is_Some (ssub a b).
Proof.
  intros Ha. revert b. induction Ha as [|x a [xv ->] Ha IH]; intros b Hb; [constructor|].
  destruct Hb as [|y b [yv ->] Hb]; simpl; [constructor|].
  constructor; [by eexists|]. by apply IH.
Qed.

Lemma Forall_is_Some_head {A} (l : list (option A)) x :
  Forall is_Some l -> head l = Some x -> is_Some x.
Proof. intros Hl. destruct Hl; simpl; [done|]. by intros [= <-]. Qed.

(** ** MACD *)

Lemma Forall_lookup_is_Some {A} (l : list (option A)) i x :
  Forall is_Some l -> l !! i = Some x -> exists v, x = Some v.
Proof.
  intros Hl E. rewrite Forall_lookup in Hl. destruct (Hl i x E) as [v ->]. by eexists.
Qed.

(** The two identities, cell by cell, NaN included. *)
Lemma macd_cells stock_id df i r :
  DF.iterrows (calculate_features stock_id df) !! i = Some r ->
  DF.r_macd_dif r = fsub (DF.r_ema12 r) (DF.r_ema26 r) /\
  DF.r_macd_osc r = fsub (DF.r_macd_dif r) (DF.r_macd_dea r).
Proof.
  intros Hr. apply iterrows_row_at in Hr as [Hi Hr].
  apply row_at_inv in Hr
    as (_ & _ & H12 & H26 & Hdif & Hdea & Hosc & _).
  simpl in H12, H26, Hdif, Hdea, Hosc.
  split.
  - exact (zip_with_lookup_inv _ _ _ _ _ _ _ H12 H26 Hdif).
  - exact (zip_with_lookup_inv _ _ _ _ _ _ _ Hdif Hdea Hosc).
Qed.

(** C6: at every row, [macd_dif] is [ema12 - ema26] and [macd_osc] is
    [macd_dif - macd_dea], as equalities of the cells (no tolerance); there
    is one such row per input row.  When the close of the first row is a
    number (the close is a nullable column), [ema12], [ema26] and the three
    MACD cells are numbers (not NaN) at every row, from the first on. *)
Theorem C6_macd_identities (stock_id : string) (df : list Kline.t) :
  length (DF.iterrows (calculate_features stock_id df)) = length df /\
  Forall (fun r =>
            DF.r_macd_dif r = fsub (DF.r_ema12 r) (DF.r_ema26 r) /\
            DF.r_macd_osc r = fsub (DF.r_macd_dif r) (DF.r_macd_dea r))
         (DF.iterrows (calculate_features stock_id df)) /\
  ((forall k, head df = Some k -> isnull (Kline.close k) = false) ->
   Forall (fun r =>
             exists e12 e26 dea : Q,
               DF.r_ema12 r = Some e12 /\ DF.r_ema26 r = Some e26 /\
               DF.r_macd_dif r = Some (e12 - e26)%Q /\
               DF.r_macd_dea r = Some dea /\
               DF.r_macd_osc r = Some (e12 - e26 - dea)%Q)
          (DF.iterrows (calculate_features stock_id df))).
Proof.
  split; [apply length_iterrows, calculate_features_aligned|]. split.
  - apply Forall_lookup. intros i r Hr. by apply (macd_cells stock_id df i).
  - intros Hfirst. apply Forall_lookup. intros i r Hr.
    destruct (macd_cells stock_id df i r Hr) as [Edif Eosc].
    apply iterrows_row_at in Hr as [Hi Hr].
    apply row_at_inv in Hr
      as (_ & _ & H12 & H26 & Hdif & Hdea & Hosc & _).
    simpl in H12, H26, Hdif, Hdea, Hosc.
    assert (Hclose : forall x, head (close_column df) = Some x -> is_Some x).
    { intros x. unfold close_column. destruct df as [|k df']; simpl; [done|].
      intros [= <-]. specialize (Hfirst k eq_refl).
      destruct (Kline.close k); [by eexists|done]. }
    pose proof (ewm_mean_is_Some 12 _ Hclose) as S12.
    pose proof (ewm_mean_is_Some 26 _ Hclose) as S26.
    pose proof (ssub_is_Some _ _ S12 S26) as Sdif.
    pose proof (ewm_mean_is_Some 9 _ (fun x => Forall_is_Some_head _ x Sdif)) as Sdea.
    destruct (Forall_lookup_is_Some _ _ _ S12 H12) as [e12 E12].
    destruct (Forall_lookup_is_Some _ _ _ S26 H26) as [e26 E26].
    destruct (Forall_lookup_is_Some _ _ _ Sdea Hdea) as [dea Edea].
    exists e12, e26, dea.
    rewrite Eosc, Edif, E12, E26, Edea. by simpl.
Qed.

(** The dicts keep these cells: a number is not turned into [None]. *)
Lemma none_if_null_Some (v : Q) : none_if_null (Some v) = Some v.
Proof. reflexivity. Qed.

Lemma none_if_null_NaN : none_if_null NaN = None.
Proof. reflexivity. Qed.

(** ** Bollinger bands and breakout flags *)

Lemma fgt_NaN_r (a : float) : fgt a NaN = false.
Proof. by destruct a. Qed.

Lemma flt_NaN_r (a : float) : flt a NaN = false.
Proof. reflexivity. Qed.

Lemma Qlt_bool_iff (x y : Q) : Qlt_bool x y = true <-> (x < y)%Q.
Proof.
  unfold Qlt_bool. rewrite negb_true_iff.
  destruct (Qle_bool y x) eqn:E.
  - split; [done|]. intros H0. apply Qle_bool_iff in E.
    exfalso. by apply (Qlt_not_le x y).
  - split; [|done]. intros _. apply Qnot_le_lt. intros H0.
    apply Qle_bool_iff in H0. congruence.
Qed.

Lemma flag_cases (b : bool) (P : Prop) :
  (b = true <-> P) ->
  (bool_unless_null b = Some true <-> P) /\
  (bool_unless_null b = Some false <-> ~ P).
Proof.
  intros Hiff. unfold bool_unless_null, isnull_bool. simpl.
  destruct b; (split; split; intros H0);
    try done; try (by apply Hiff);
    try (exfalso; by (apply H0, Hiff) || (apply Hiff in H0; done)).
  intros HP. by apply Hiff in HP.
Qed.

(** The flags of a row are the comparisons of its close with its bands:
    where the close and the band are numbers the flag says whether the close
    is beyond the band. *)
Lemma flags_compare_close (stock_id : string) (df : list Kline.t) (i : nat) (r : DF.row) :
  DF.iterrows (calculate_features stock_id df) !! i = Some r ->
  DF.r_bb_break_up r = fgt (Kline.close (DF.r_kline r)) (DF.r_bb_upper20 r) /\
  DF.r_bb_break_dn r = flt (Kline.close (DF.r_kline r)) (DF.r_bb_lower20 r) /\
  (forall c u, Kline.close (DF.r_kline r) = Some c -> DF.r_bb_upper20 r = Some u ->
     (bool_unless_null (DF.r_bb_break_up r) = Some true <-> (c > u)%Q) /\
     (bool_unless_null (DF.r_bb_break_up r) = Some false <-> ~ (c > u)%Q)) /\
  (forall c l, Kline.close (DF.r_kline r) = Some c -> DF.r_bb_lower20 r = Some l ->
     (bool_unless_null (DF.r_bb_break_dn r) = Some true <-> (c < l)%Q) /\
     (bool_unless_null (DF.r_bb_break_dn r) = Some false <-> ~ (c < l)%Q)).
Proof.
  intros Hr. apply iterrows_row_at in Hr as [Hi Hr].
  apply row_at_inv in Hr
    as (Hk & _ & _ & _ & _ & _ & _ & _ & _ & Hup & Hlo & _ & _ & Hbu & Hbd).
  simpl in Hk, Hup, Hlo, Hbu, Hbd.
  assert (Hc : close_column df !! i = Some (Kline.close (DF.r_kline r))).
  { by rewrite lookup_close_column, Hk. }
  pose proof (zip_with_lookup_inv _ _ _ _ _ _ _ Hc Hup Hbu) as Eu.
  pose proof (zip_with_lookup_inv _ _ _ _ _ _ _ Hc Hlo Hbd) as Ed.
  split; [done|]. split; [done|]. split.
  - intros c u Ec Hu. rewrite Eu, Ec, Hu. simpl.
    apply flag_cases, Qlt_bool_iff.
  - intros c l Ec Hl. rewrite Ed, Ec, Hl. unfold flt. simpl.
    apply flag_cases, Qlt_bool_iff.
Qed.

(** C2, what the code does: at each of the first 19 rows the bands are NaN
    (null in the dict) and both flags are [False], in the frame and in the
    dict, where the claim wants them null. *)
Theorem C2_flags_false_while_band_null (stock_id : string) (df : list Kline.t)
    (i : nat) (r : DF.row) :
  DF.iterrows (calculate_features stock_id df) !! i = Some r ->
  i < 19 ->
  none_if_null (DF.r_bb_upper20 r) = None /\
  none_if_null (DF.r_bb_lower20 r) = None /\
  DF.r_bb_break_up r = false /\
  DF.r_bb_break_dn r = false /\
  bool_unless_null (DF.r_bb_break_up r) = Some false /\
  bool_unless_null (DF.r_bb_break_dn r) = Some false.
Proof.
  intros Hr H19.
  destruct (flags_compare_close _ _ _ _ Hr) as (Eu & Ed & _).
  apply iterrows_row_at in Hr as [Hi Hr].
  apply row_at_inv in Hr
    as (_ & _ & _ & _ & _ & _ & _ & Hma & Hstd & Hup & Hlo & _).
  simpl in Hma, Hstd, Hup, Hlo.
  assert (Hnan : rolling 20 mean (close_column df) !! i = Some NaN).
  { apply rolling_warmup; [by rewrite length_close_column|lia]. }
  assert (Hs : exists s, smul_scalar 2 (rolling 20 std (close_column df)) !! i = Some s).
  { apply lookup_lt_is_Some_2. unfold smul_scalar.
    by rewrite length_fmap, length_rolling, length_close_column. }
  destruct Hs as [s Hs].
  pose proof (zip_with_lookup_inv _ _ _ _ _ _ _ Hnan Hs Hup) as Eup.
  pose proof (zip_with_lookup_inv _ _ _ _ _ _ _ Hnan Hs Hlo) as Elo.
  simpl in Eup, Elo.
  rewrite Eu, Ed, Eup, Elo. by rewrite fgt_NaN_r, flt_NaN_r.
Qed.

(** ** Running the orchestrator *)

Lemma mapM_shape_row self stock_id rows w :
  mapM (shape_row self stock_id) rows w =
    (Ok (dicts_from self stock_id (clock w) (ticks w) rows),
     set_ticks (ticks w + 2 * length rows) w).
Proof.
  revert w. induction rows as [|row rest IH]; intros w.
  - simpl. unfold ret, set_ticks. destruct w; simpl. do 3 f_equal. lia.
  - simpl. unfold bind at 1. unfold shape_row, bind, datetime_now, ret.
    simpl. rewrite IH. simpl. unfold set_ticks. simpl. do 3 f_equal. lia.
Qed.

Lemma length_dicts_from self stock_id clk t rows :
  length (dicts_from self stock_id clk t rows) = length rows.
Proof.
  revert t. induction rows as [|row rest IH]; intros t; simpl; [done|].
  by rewrite IH.
Qed.

Lemma dicts_from_lookup self stock_id clk t rows i :
  dicts_from self stock_id clk t rows !! i =
    (fun row => make_dict self stock_id row (clk (t + 2 * i)) (clk (t + 2 * i + 1)))
      <$> rows !! i.
Proof.
  revert t i. induction rows as [|row rest IH]; intros t i; simpl; [done|].
  destruct i as [|i]; simpl.
  - by rewrite Nat.add_0_r, Nat.add_1_r.
  - rewrite IH. by replace (S (S t) + 2 * i) with (t + S (i + S (i + 0))) by lia.
Qed.

Lemma ordinal_year_1000_eq : ordinal_year_1000 = 364878%Z.
Proof. reflexivity. Qed.

Lemma max_ordinal_eq : max_ordinal = 3652059%Z.
Proof. reflexivity. Qed.

Lemma fetch_start_single d : fetch_start (Some d) (Some d) = Some (d - 29)%Z.
Proof. unfold fetch_start. by rewrite decide_True. Qed.

Lemma fetch_start_none e : fetch_start None e = None.
Proof. reflexivity. Qed.

Lemma fetch_start_range s e : s <> e -> fetch_start s e = s.
Proof. intros Hne. unfold fetch_start. destruct s; [|done]. by rewrite decide_False. Qed.

(** For a request in range the bound is the first day of the window. *)
Lemma lower_bound_in_range w start_date end_date :
  request_in_range start_date end_date ->
  lower_bound w start_date end_date = Ok (fetch_start start_date end_date).
Proof.
  intros Hreq. unfold lower_bound, fetch_start.
  destruct start_date as [d|]; [|done].
  destruct (decide (Some d = end_date)) as [<-|Hne]; [|done].
  destruct (Hreq d eq_refl eq_refl) as [Hlo Hhi].
  pose proof ordinal_year_1000_eq. unfold min_ordinal.
  rewrite !decide_True by lia. done.
Qed.

(** The bound does not look at the kline table. *)
Lemma lower_bound_set_kline_table table w start_date end_date :
  lower_bound (set_kline_table table w) start_date end_date =
  lower_bound w start_date end_date.
Proof. reflexivity. Qed.

Lemma bind_run {A B} (m : M A) (k : A -> M B) w a w1 :
  m w = (Ok a, w1) -> bind m k w = k a w1.
Proof. intros Hm. unfold bind. by rewrite Hm. Qed.

Lemma bind_raise {A B} (m : M A) (k : A -> M B) w e w1 :
  m w = (Raise e, w1) -> bind m k w = (Raise e, w1).
Proof. intros Hm. unfold bind. by rewrite Hm. Qed.

Lemma same_data_refl w : same_data w w.
Proof. by repeat split. Qed.

Lemma same_data_trans w1 w2 w3 : same_data w1 w2 -> same_data w2 w3 -> same_data w1 w3.
Proof.
  unfold same_data. intros (?&?&?&?&?&?&?&?) (?&?&?&?&?&?&?&?).
  repeat split; congruence.
Qed.

(** A query whose bounds are texts with a year of four digits. *)
Lemma get_kline_run stock_id (lo hi : option date) w :
  get_kline stock_id (Iso <$> lo) (Iso <$> hi) w =
    (Ok (select_kline (kline_table w) stock_id lo hi),
     set_pending None
       (set_db_trace
          (db_trace w ++ [OpSelectKline stock_id (Iso <$> lo) (Iso <$> hi); OpClose]) w)).
Proof.
  destruct lo, hi; cbv beta iota zeta delta
    [get_kline bind SessionLocal try_finally trace read_bound read_date_text
     session_close ret fmap option_fmap option_map];
    simpl; unfold set_pending, set_db_trace; simpl; by rewrite <- app_assoc.
Qed.

(** A query whose lower bound is a text with a short year: the database
    reads it as it will, or refuses the query; the session is closed in both
    cases. *)
Lemma get_kline_unpadded_run stock_id a (hi : option date) w :
  get_kline stock_id (Some (Unpadded a)) (Iso <$> hi) w =
    (match unpadded_reading w a with
     | Ok a' => Ok (select_kline (kline_table w) stock_id (Some a') hi)
     | Raise e => Raise e
     end,
     set_pending None
       (set_db_trace
          (db_trace w ++ [OpSelectKline stock_id (Some (Unpadded a)) (Iso <$> hi); OpClose])
          w)).
Proof.
  destruct hi; cbv beta iota zeta delta
    [get_kline bind SessionLocal try_finally trace read_bound read_date_text
     session_close ret fmap option_fmap option_map];
    simpl; destruct (unpadded_reading w a); simpl;
    unfold set_pending, set_db_trace; simpl; by rewrite <- app_assoc.
Qed.

(** What follows the fetch, from [if df.empty] on. *)
Lemma etl_tail_run self stock_id end_date bars w1 :
  exists w2,
    (if DF.empty bars then
       logger (WarnNoKline stock_id) ;;; ret []
     else
       let df := calculate_features stock_id bars in
       result <- mapM (shape_row self stock_id) (DF.iterrows df) ;;
       logger (InfoFinished stock_id end_date (length result)) ;;;
       ret result) w1 =
    (Ok (dicts_from self stock_id (clock w1) (ticks w1)
           (DF.iterrows (calculate_features stock_id bars))), w2) /\
    db_trace w2 = db_trace w1 /\
    pending w2 = pending w1 /\
    same_data w1 w2.
Proof.
  destruct bars as [|k bars'].
  - eexists. split; [reflexivity|]. by repeat split.
  - cbv beta iota zeta delta [DF.empty].
    erewrite bind_run by apply mapM_shape_row.
    eexists. split; [reflexivity|]. by repeat split.
Qed.

Lemma strptime_run d w :
  (min_ordinal <= d <= max_ordinal)%Z -> strptime (Some d) w = (Ok d, w).
Proof. intros Hr. unfold strptime. by rewrite bool_decide_true. Qed.

Lemma strptime_raise d w :
  ~ (min_ordinal <= d <= max_ordinal)%Z -> strptime (Some d) w = (Raise ValueError, w).
Proof. intros Hr. unfold strptime. by rewrite bool_decide_false. Qed.

Lemma sub_timedelta_run dt days w :
  (min_ordinal <= dt - days <= max_ordinal)%Z ->
  sub_timedelta dt days w = (Ok (dt - days)%Z, w).
Proof. intros Hr. unfold sub_timedelta. by rewrite bool_decide_true. Qed.

Lemma sub_timedelta_raise dt days w :
  ~ (min_ordinal <= dt - days <= max_ordinal)%Z ->
  sub_timedelta dt days w = (Raise OverflowError, w).
Proof. intros Hr. unfold sub_timedelta. by rewrite bool_decide_false. Qed.

(** The fetch with bounds of four-digit years: log, query, log. *)
Lemma fetch_run stock_id (lo hi e : option date) w :
  exists w1,
    (logger (InfoFetching stock_id (Iso <$> lo) e) ;;;
     kline_objs <- get_kline stock_id (Iso <$> lo) (Iso <$> hi) ;;
     logger (InfoFetched (length kline_objs) stock_id) ;;;
     ret kline_objs) w =
      (Ok (select_kline (kline_table w) stock_id lo hi), w1) /\
    db_trace w1 =
      db_trace w ++ [OpSelectKline stock_id (Iso <$> lo) (Iso <$> hi); OpClose] /\
    pending w1 = None /\
    ticks w1 = ticks w /\
    same_data w w1.
Proof.
  erewrite bind_run by reflexivity.
  erewrite bind_run by apply get_kline_run.
  eexists. split; [reflexivity|]. by repeat split.
Qed.

(** The same with a lower bound of a short year. *)
Lemma fetch_unpadded_run stock_id a (hi e : option date) w :
  exists w1,
    (logger (InfoFetching stock_id (Some (Unpadded a)) e) ;;;
     kline_objs <- get_kline stock_id (Some (Unpadded a)) (Iso <$> hi) ;;
     logger (InfoFetched (length kline_objs) stock_id) ;;;
     ret kline_objs) w =
      (match unpadded_reading w a with
       | Ok a' => Ok (select_kline (kline_table w) stock_id (Some a') hi)
       | Raise x => Raise x
       end, w1) /\
    pending w1 = None /\
    ticks w1 = ticks w /\
    same_data w w1.
Proof.
  erewrite bind_run by reflexivity.
  unfold bind at 1. rewrite get_kline_unpadded_run. simpl.
  destruct (unpadded_reading w a) as [a'|x];
    (eexists; split; [reflexivity|]; by repeat split).
Qed.

(** One call of [etl_by_stock], whatever the request: it ends with the
    error of the bound, or returns the dicts of the bars fetched from that
    bound on; it writes to no table; for a request in range it sends one
    query, with the bounds of the window. *)
Lemma etl_by_stock_run self stock_id start_date end_date w :
  exists w',
    etl_by_stock self stock_id start_date end_date w =
      (match lower_bound w start_date end_date with
       | Ok lo =>
           Ok (dicts_from self stock_id (clock w) (ticks w)
                 (DF.iterrows (calculate_features stock_id
                    (select_kline (kline_table w) stock_id lo end_date))))
       | Raise e => Raise e
       end, w') /\
    same_data w w' /\
    (request_in_range start_date end_date ->
     db_trace w' =
       db_trace w ++ [OpSelectKline stock_id (Iso <$> fetch_start start_date end_date)
                        (Iso <$> end_date); OpClose]).
Proof.
  unfold etl_by_stock, lower_bound.
  destruct start_date as [d|].
  - destruct (decide (Some d = end_date)) as [<-|Hne].
    + rewrite !bool_decide_true by done. cbn [andb].
      destruct (decide (min_ordinal <= d <= max_ordinal)%Z) as [Hr|Hr].
      * destruct (decide (min_ordinal <= d - 29)%Z) as [Hm|Hm].
        -- assert (Hsub : forall w0, sub_timedelta d (max_window - 1) w0 = (Ok (d - 29)%Z, w0)).
           { intros w0. apply sub_timedelta_run. unfold max_window. lia. }
           destruct (decide (ordinal_year_1000 <= d - 29)%Z) as [Hy|Hy].
           ++ destruct (fetch_run stock_id (Some (d - 29)%Z) (Some d) (Some d) w)
                as (w1 & Hfetch & Htr & _ & Ht & Hd1).
              destruct (etl_tail_run self stock_id (Some d)
                          (select_kline (kline_table w) stock_id (Some (d - 29)%Z) (Some d)) w1)
                as (w2 & Hrun & Htr2 & _ & Hd2).
              exists w2. split; [|split; [by eapply same_data_trans|]].
              ** erewrite bind_run; [rewrite Hrun|].
                 --- destruct Hd1 as (_ & _ & _ & _ & _ & Hc & _). by rewrite Hc, Ht.
                 --- erewrite bind_run by (by apply strptime_run).
                     erewrite bind_run by apply Hsub.
                     unfold strftime. rewrite bool_decide_true by done. exact Hfetch.
              ** intros _. by rewrite Htr2, Htr, fetch_start_single.
           ++ destruct (fetch_unpadded_run stock_id (d - 29)%Z (Some d) (Some d) w)
                as (w1 & Hfetch & _ & Ht & Hd1).
              assert (Hf : (start_dt <- strptime (Some d) ;;
                            start_dt_adj <- sub_timedelta start_dt (max_window - 1) ;;
                            let start_date_adj := Some (strftime start_dt_adj) in
                            logger (InfoFetching stock_id start_date_adj (Some d)) ;;;
                            kline_objs <- get_kline stock_id start_date_adj (Iso <$> Some d) ;;
                            logger (InfoFetched (length kline_objs) stock_id) ;;;
                            ret kline_objs) w =
                           (match unpadded_reading w (d - 29)%Z with
                            | Ok a' => Ok (select_kline (kline_table w) stock_id (Some a') (Some d))
                            | Raise x => Raise x
                            end, w1)).
              { erewrite bind_run by (by apply strptime_run).
                erewrite bind_run by apply Hsub.
                unfold strftime. rewrite bool_decide_false by done. exact Hfetch. }
              assert (Hout : ~ request_in_range (Some d) (Some d)).
              { intros Hreq. destruct (Hreq d eq_refl eq_refl) as [Hlo _]. lia. }
              destruct (unpadded_reading w (d - 29)%Z) as [a'|x].
              ** destruct (etl_tail_run self stock_id (Some d)
                             (select_kline (kline_table w) stock_id (Some a') (Some d)) w1)
                   as (w2 & Hrun & _ & _ & Hd2).
                 exists w2. split; [|split; [by eapply same_data_trans|done]].
                 erewrite bind_run; [rewrite Hrun|exact Hf].
                 destruct Hd1 as (_ & _ & _ & _ & _ & Hc & _). by rewrite Hc, Ht.
              ** exists w1. split; [|done]. by erewrite bind_raise.
        -- exists w. split; [|split; [apply same_data_refl|]].
           ++ erewrite bind_raise; [done|].
              erewrite bind_run by (by apply strptime_run).
              erewrite bind_raise; [done|].
              apply sub_timedelta_raise. unfold max_window. lia.
           ++ intros Hreq. destruct (Hreq d eq_refl eq_refl) as [Hlo _].
              pose proof ordinal_year_1000_eq. unfold min_ordinal in Hm. lia.
      * exists w. split; [|split; [apply same_data_refl|]].
        -- erewrite bind_raise; [done|].
           erewrite bind_raise; [done|]. by apply strptime_raise.
        -- intros Hreq. destruct (Hreq d eq_refl eq_refl) as [Hlo Hhi].
           pose proof ordinal_year_1000_eq. unfold min_ordinal in Hr. lia.
    + rewrite bool_decide_false by done. cbn [andb].
      destruct (fetch_run stock_id (Some d) end_date end_date w)
        as (w1 & Hfetch & Htr & _ & Ht & Hd1).
      destruct (etl_tail_run self stock_id end_date
                  (select_kline (kline_table w) stock_id (Some d) end_date) w1)
        as (w2 & Hrun & Htr2 & _ & Hd2).
      exists w2. split; [|split; [by eapply same_data_trans|]].
      * erewrite bind_run; [rewrite Hrun|exact Hfetch].
        destruct Hd1 as (_ & _ & _ & _ & _ & Hc & _). by rewrite Hc, Ht.
      * intros _. by rewrite Htr2, Htr, fetch_start_range.
  - rewrite (bool_decide_false (None <> None)) by (intros Hn; by apply Hn).
    rewrite andb_false_r.
    destruct (fetch_run stock_id None end_date end_date w)
      as (w1 & Hfetch & Htr & _ & Ht & Hd1).
    destruct (etl_tail_run self stock_id end_date
                (select_kline (kline_table w) stock_id None end_date) w1)
      as (w2 & Hrun & Htr2 & _ & Hd2).
    exists w2. split; [|split; [by eapply same_data_trans|]].
    + erewrite bind_run; [rewrite Hrun|exact Hfetch].
      destruct Hd1 as (_ & _ & _ & _ & _ & Hc & _). by rewrite Hc, Ht.
    + intros _. by rewrite Htr2, Htr.
Qed.

(** ** The query of [get_kline] *)

Global Instance date_le_total : Total date_le.
Proof. intros a b. unfold date_le. lia. Qed.

Lemma select_kline_Permutation table stock_id lo hi :
  select_kline table stock_id lo hi ≡ₚ filter (in_window stock_id lo hi) table.
Proof.
  unfold select_kline. rewrite merge_sort_Permutation.
  destruct lo as [s|], hi as [e|]; rewrite ?list_filter_filter;
    (erewrite list_filter_iff; [reflexivity|]);
    intros k; unfold in_window; simpl; tauto.
Qed.

Lemma select_kline_elem table stock_id lo hi k :
  k ∈ select_kline table stock_id lo hi <-> k ∈ table /\ in_window stock_id lo hi k.
Proof.
  rewrite select_kline_Permutation, list_elem_of_filter. tauto.
Qed.

Lemma select_kline_Sorted table stock_id lo hi :
  Sorted date_le (select_kline table stock_id lo hi).
Proof. unfold select_kline. apply Sorted_merge_sort. apply _. Qed.

(** ** The dicts of a call *)

Lemma dicts_from_keys self stock_id clk t rows :
  FeatureDaily.key <$> dicts_from self stock_id clk t rows =
  (fun k => (stock_id, Kline.date k)) <$> (DF.r_kline <$> rows).
Proof.
  revert t. induction rows as [|row rest IH]; intros t; simpl; [done|].
  by rewrite IH.
Qed.

Lemma dicts_from_trade_dates self stock_id clk t rows :
  FeatureDaily.trade_date <$> dicts_from self stock_id clk t rows =
  Kline.date <$> (DF.r_kline <$> rows).
Proof.
  revert t. induction rows as [|row rest IH]; intros t; simpl; [done|].
  by rewrite IH.
Qed.

Lemma dicts_from_run_id self stock_id clk t rows :
  Forall (fun r => FeatureDaily.etl_run_id r = DailyFeatureETL.etl_run_id self)
         (dicts_from self stock_id clk t rows).
Proof.
  revert t. induction rows as [|row rest IH]; intros t; simpl; constructor; auto.
Qed.

Lemma dicts_from_clock self stock_id clk t rows :
  FeatureDaily.created_at <$> dicts_from self stock_id clk t rows =
    (fun i => clk (t + 2 * i)) <$> seq 0 (length rows) /\
  FeatureDaily.updated_at <$> dicts_from self stock_id clk t rows =
    (fun i => clk (t + 2 * i + 1)) <$> seq 0 (length rows).
Proof.
  split; apply list_eq; intros i;
    rewrite !list_lookup_fmap, dicts_from_lookup;
    (destruct (rows !! i) as [row|] eqn:E; simpl;
     [ apply lookup_lt_Some in E; by rewrite lookup_seq_lt
     | apply lookup_ge_None in E; by rewrite lookup_seq_ge ]).
Qed.

(** The dicts a call returns are those of the bars fetched from the bound
    the database has read. *)
Lemma etl_by_stock_Ok_inv self stock_id start_date end_date w recs w' :
  etl_by_stock self stock_id start_date end_date w = (Ok recs, w') ->
  exists lo,
    lower_bound w start_date end_date = Ok lo /\
    recs = dicts_from self stock_id (clock w) (ticks w)
             (DF.iterrows (calculate_features stock_id
                (select_kline (kline_table w) stock_id lo end_date))).
Proof.
  intros Hrun.
  destruct (etl_by_stock_run self stock_id start_date end_date w) as (w2 & Hrun2 & _).
  rewrite Hrun in Hrun2.
  destruct (lower_bound w start_date end_date) as [lo|x]; [|done].
  exists lo. split; [done|]. by injection Hrun2.
Qed.

(** The dicts of a call for a request in range, one per fetched bar. *)
Lemma etl_by_stock_returns self stock_id start_date end_date w :
  request_in_range start_date end_date ->
  exists recs w',
    etl_by_stock self stock_id start_date end_date w = (Ok recs, w') /\
    recs = dicts_from self stock_id (clock w) (ticks w)
             (DF.iterrows (calculate_features stock_id
                (select_kline (kline_table w) stock_id
                   (fetch_start start_date end_date) end_date))) /\
    FeatureDaily.key <$> recs =
      (fun k => (stock_id, Kline.date k)) <$>
        select_kline (kline_table w) stock_id (fetch_start start_date end_date) end_date /\
    length recs =
      length (select_kline (kline_table w) stock_id
                (fetch_start start_date end_date) end_date) /\
    db_trace w' =
      db_trace w ++ [OpSelectKline stock_id (Iso <$> fetch_start start_date end_date)
                       (Iso <$> end_date); OpClose].
Proof.
  intros Hreq.
  destruct (etl_by_stock_run self stock_id start_date end_date w)
    as (w' & Hrun & _ & Htrace).
  rewrite (lower_bound_in_range w _ _ Hreq) in Hrun.
  eexists _, w'. split; [exact Hrun|]. split; [done|].
  split; [by rewrite dicts_from_keys, iterrows_kline|].
  split; [|by apply Htrace].
  rewrite length_dicts_from.
  apply length_iterrows, calculate_features_aligned.
Qed.

Lemma request_in_range_single d : pads_in_range d -> request_in_range (Some d) (Some d).
Proof. intros Hd d' [= <-] _. exact Hd. Qed.

Lemma request_in_range_none e : request_in_range None e.
Proof. intros d Hd. discriminate. Qed.

Lemma request_in_range_range s e : s <> e -> request_in_range s e.
Proof. intros Hne d -> ->. done. Qed.

(** ** Requests for a single day *)

(** C1, amended: a request for the single day [d] (from 1000-01-30 on, so
    that the padded bound is a date of a four-digit year) returns one dict
    per bar the table holds for the stock from day [d - 29] to day [d], both
    included, in ascending order of date: the rows fetched as padding are
    returned with the row of day [d]. *)
Theorem C1_single_day_returns_padded_window
    (self : DailyFeatureETL.t) (stock_id : string) (d : date) (w : World) :
  pads_in_range d ->
  exists recs w',
    etl_by_stock self stock_id (Some d) (Some d) w = (Ok recs, w') /\
    FeatureDaily.trade_date <$> recs =
      Kline.date <$> select_kline (kline_table w) stock_id (Some (d - 29)%Z) (Some d) /\
    select_kline (kline_table w) stock_id (Some (d - 29)%Z) (Some d) ≡ₚ
      filter (fun k => Kline.stock_id k = stock_id /\
                       (d - 29 <= Kline.date k)%Z /\ (Kline.date k <= d)%Z)
             (kline_table w) /\
    Sorted Z.le (FeatureDaily.trade_date <$> recs) /\
    Forall (fun r => FeatureDaily.stock_id r = stock_id /\
                     (d - 29 <= FeatureDaily.trade_date r <= d)%Z) recs.
Proof.
  intros Hd.
  destruct (etl_by_stock_returns self stock_id (Some d) (Some d) w
              (request_in_range_single d Hd))
    as (recs & w' & Hrun & Hrecs & Hkeys & _).
  rewrite fetch_start_single in *.
  set (bars := select_kline (kline_table w) stock_id (Some (d - 29)%Z) (Some d)) in *.
  assert (Hdates : FeatureDaily.trade_date <$> recs = Kline.date <$> bars).
  { rewrite Hrecs, dicts_from_trade_dates. by rewrite iterrows_kline. }
  exists recs, w'. split; [done|]. split; [done|]. split; [|split].
  - subst bars. rewrite select_kline_Permutation.
    erewrite list_filter_iff; [reflexivity|].
    intros k. unfold in_window. simpl. tauto.
  - rewrite Hdates. apply Sorted_fmap with (R1 := date_le); [done|].
    apply select_kline_Sorted.
  - apply Forall_lookup. intros i r Hr.
    assert (Hk : (FeatureDaily.key <$> recs) !! i = Some (FeatureDaily.key r)).
    { by rewrite list_lookup_fmap, Hr. }
    rewrite Hkeys, list_lookup_fmap in Hk.
    destruct (bars !! i) as [k|] eqn:Ek; simpl in Hk; [|done].
    injection Hk as Hs Hdt.
    apply list_elem_of_lookup_2, select_kline_elem in Ek as [_ (_ & Hlo & Hhi)].
    simpl in Hlo, Hhi. rewrite <- Hs, <- Hdt. split; [done|lia].
Qed.

(** C3: for a request of the single day [d] (from 1000-01-30 on), the one
    query [etl_by_stock] sends to the kline table is [get_kline] with the
    texts of the days [d - 29] and [d] as bounds; that query returns the bars
    of the stock dated from [d - 29] to [d], both bounds included, and the
    dicts returned are those of these bars. *)
Theorem C3_single_day_fetch_window
    (self : DailyFeatureETL.t) (stock_id : string) (d : date) (w : World) :
  pads_in_range d ->
  exists recs w',
    etl_by_stock self stock_id (Some d) (Some d) w = (Ok recs, w') /\
    db_trace w' =
      db_trace w ++ [OpSelectKline stock_id (Some (Iso (d - 29)%Z)) (Some (Iso d)); OpClose] /\
    fst (get_kline stock_id (Some (Iso (d - 29)%Z)) (Some (Iso d)) w) =
      Ok (select_kline (kline_table w) stock_id (Some (d - 29)%Z) (Some d)) /\
    FeatureDaily.trade_date <$> recs =
      Kline.date <$> select_kline (kline_table w) stock_id (Some (d - 29)%Z) (Some d) /\
    forall k,
      k ∈ select_kline (kline_table w) stock_id (Some (d - 29)%Z) (Some d) <->
      k ∈ kline_table w /\ Kline.stock_id k = stock_id /\
      (d - 29 <= Kline.date k)%Z /\ (Kline.date k <= d)%Z.
Proof.
  intros Hd.
  destruct (etl_by_stock_returns self stock_id (Some d) (Some d) w
              (request_in_range_single d Hd))
    as (recs & w' & Hrun & Hrecs & _ & _ & Htrace).
  rewrite fetch_start_single in *.
  exists recs, w'. split; [done|]. split; [done|].
  split; [by rewrite (get_kline_run stock_id (Some (d - 29)%Z) (Some d))|].
  split; [rewrite Hrecs, dicts_from_trade_dates; by rewrite iterrows_kline|].
  intros k. rewrite select_kline_elem. unfold in_window. simpl. tauto.
Qed.

(** A request for a single day in the first 29 days of the calendar ends
    with the [OverflowError] of the subtraction, before anything is logged or
    fetched. *)
Lemma single_day_near_min_raises self stock_id d w :
  (min_ordinal <= d < min_ordinal + 29)%Z ->
  etl_by_stock self stock_id (Some d) (Some d) w = (Raise OverflowError, w).
Proof.
  intros Hd. pose proof max_ordinal_eq. unfold min_ordinal in Hd.
  unfold etl_by_stock. rewrite !bool_decide_true by done. cbn [andb].
  erewrite bind_raise; [done|].
  erewrite bind_run by (apply strptime_run; unfold min_ordinal; lia).
  erewrite bind_raise; [done|].
  apply sub_timedelta_raise. unfold max_window, min_ordinal. lia.
Qed.

(** C10: with both dates absent the padding branch is not taken: the one
    query carries no bound on either side, it selects every bar of the stock,
    and one dict is returned per bar, in ascending order of date. *)
Theorem C10_no_dates_whole_history
    (self : DailyFeatureETL.t) (stock_id : string) (w : World) :
  exists recs w',
    etl_by_stock self stock_id None None w = (Ok recs, w') /\
    db_trace w' = db_trace w ++ [OpSelectKline stock_id None None; OpClose] /\
    select_kline (kline_table w) stock_id None None ≡ₚ
      filter (fun k => Kline.stock_id k = stock_id) (kline_table w) /\
    FeatureDaily.trade_date <$> recs =
      Kline.date <$> select_kline (kline_table w) stock_id None None /\
    length recs =
      length (filter (fun k => Kline.stock_id k = stock_id) (kline_table w)).
Proof.
  destruct (etl_by_stock_returns self stock_id None None w (request_in_range_none None))
    as (recs & w' & Hrun & Hrecs & _ & Hlen & Htrace).
  rewrite fetch_start_none in *.
  assert (Hperm : select_kline (kline_table w) stock_id None None ≡ₚ
                  filter (fun k => Kline.stock_id k = stock_id) (kline_table w)).
  { unfold select_kline. apply merge_sort_Permutation. }
  exists recs, w'. split; [done|]. split; [done|]. split; [done|]. split.
  - rewrite Hrecs, dicts_from_trade_dates. by rewrite iterrows_kline.
  - by rewrite Hlen, Hperm.
Qed.

(** ** Series that are not checked *)

(** C8, amended: [etl_by_stock] checks nothing about the series it fetches.
    When it returns, the dicts are those of the indicators computed over the
    series as fetched, one per fetched bar, keyed by the stock and the date of
    the bar, in the order fetched, which is ascending by date.  Whether it
    raises, and which error, does not depend on what the kline table holds;
    for a request in range it returns. *)
Theorem C8_no_validation_of_series
    (self : DailyFeatureETL.t) (stock_id : string)
    (start_date end_date : option date) (w : World) :
  exists res w',
    etl_by_stock self stock_id start_date end_date w = (res, w') /\
    (forall recs, res = Ok recs ->
       exists lo,
         recs = dicts_from self stock_id (clock w) (ticks w)
                  (DF.iterrows (calculate_features stock_id
                     (select_kline (kline_table w) stock_id lo end_date))) /\
         FeatureDaily.key <$> recs =
           (fun k => (stock_id, Kline.date k)) <$>
             select_kline (kline_table w) stock_id lo end_date /\
         Sorted date_le (select_kline (kline_table w) stock_id lo end_date)) /\
    (forall table, exists res2 w2,
       etl_by_stock self stock_id start_date end_date (set_kline_table table w) =
         (res2, w2) /\
       forall x, res = Raise x <-> res2 = Raise x) /\
    (request_in_range start_date end_date -> exists recs, res = Ok recs).
Proof.
  destruct (etl_by_stock_run self stock_id start_date end_date w) as (w' & Hrun & _).
  eexists _, w'. split; [exact Hrun|]. split; [|split].
  - intros recs Hrecs.
    destruct (lower_bound w start_date end_date) as [lo|x]; [|done].
    injection Hrecs as <-. exists lo. split; [done|].
    split; [by rewrite dicts_from_keys, iterrows_kline|apply select_kline_Sorted].
  - intros table.
    destruct (etl_by_stock_run self stock_id start_date end_date (set_kline_table table w))
      as (w2 & Hrun2 & _).
    rewrite lower_bound_set_kline_table in Hrun2.
    eexists _, w2. split; [exact Hrun2|].
    intros x. by destruct (lower_bound w start_date end_date).
  - intros Hreq. rewrite (lower_bound_in_range w _ _ Hreq). by eexists.
Qed.

(** ** Timestamps and run identifier *)

(** C9, amended: each dict takes [created_at] and [updated_at] from two
    successive readings of the clock, [created_at] first (the dict of row [i]
    the readings [2i] and [2i+1] of the call), and every dict of a call
    carries the run identifier of the [DailyFeatureETL] object.  This holds
    of every call that returns, and a call returns for every request in
    range. *)
Theorem C9_timestamps_and_run_id
    (self : DailyFeatureETL.t) (stock_id : string)
    (start_date end_date : option date) (w : World) :
  (forall recs w',
     etl_by_stock self stock_id start_date end_date w = (Ok recs, w') ->
     FeatureDaily.created_at <$> recs =
       (fun i => clock w (ticks w + 2 * i)) <$> seq 0 (length recs) /\
     FeatureDaily.updated_at <$> recs =
       (fun i => clock w (ticks w + 2 * i + 1)) <$> seq 0 (length recs) /\
     Forall (fun r => FeatureDaily.etl_run_id r = DailyFeatureETL.etl_run_id self) recs) /\
  (request_in_range start_date end_date ->
   exists recs w',
     etl_by_stock self stock_id start_date end_date w = (Ok recs, w') /\
     FeatureDaily.created_at <$> recs =
       (fun i => clock w (ticks w + 2 * i)) <$> seq 0 (length recs) /\
     FeatureDaily.updated_at <$> recs =
       (fun i => clock w (ticks w + 2 * i + 1)) <$> seq 0 (length recs) /\
     Forall (fun r => FeatureDaily.etl_run_id r = DailyFeatureETL.etl_run_id self) recs).
Proof.
  assert (Hall : forall recs w',
     etl_by_stock self stock_id start_date end_date w = (Ok recs, w') ->
     FeatureDaily.created_at <$> recs =
       (fun i => clock w (ticks w + 2 * i)) <$> seq 0 (length recs) /\
     FeatureDaily.updated_at <$> recs =
       (fun i => clock w (ticks w + 2 * i + 1)) <$> seq 0 (length recs) /\
     Forall (fun r => FeatureDaily.etl_run_id r = DailyFeatureETL.etl_run_id self) recs).
  { intros recs w' Hrun.
    destruct (etl_by_stock_Ok_inv _ _ _ _ _ _ _ Hrun) as (lo & _ & Hrecs).
    rewrite Hrecs, length_dicts_from.
    split; [apply dicts_from_clock|]. split; [apply dicts_from_clock|].
    apply dicts_from_run_id. }
  split; [exact Hall|].
  intros Hreq.
  destruct (etl_by_stock_returns self stock_id start_date end_date w Hreq)
    as (recs & w' & Hrun & _).
  exists recs, w'. split; [done|]. by apply (Hall recs w').
Qed.

(** ** The upsert *)

Lemma merge_rows_nil table : merge_rows [] table = table.
Proof. reflexivity. Qed.

(** The four ways a call of [bulk_upsert_to_db] on a batch that is not empty
    can go, by the next two faults of the database and the keys of the batch. *)
Lemma bulk_upsert_cases (r0 : FeatureDaily.t) (rest : list FeatureDaily.t) (w : World) :
  let batch := r0 :: rest in
  exists res w',
    bulk_upsert_to_db batch w = (res, w') /\
    pending w' = None /\
    ((res = Ok (length batch) /\
      feature_daily w' = merge_rows batch (feature_daily w) /\
      db_trace w' = db_trace w ++ [OpExecuteUpsert batch; OpCommit; OpClose] /\
      log w' = log w ++ [InfoUpserted (length batch)]) \/
     (exists e,
        res = Raise e /\
        feature_daily w' = feature_daily w /\
        log w' = log w ++ [ErrorUpsertFailed e] /\
        (db_trace w' = db_trace w ++ [OpExecuteUpsert batch; OpRollback; OpClose] \/
         db_trace w' =
           db_trace w ++ [OpExecuteUpsert batch; OpCommit; OpRollback; OpClose]))).
Proof.
  intros batch.
  cbv beta iota zeta delta
    [bulk_upsert_to_db bind SessionLocal try_finally try_except
     session_execute session_commit session_rollback session_close
     next_fault trace logger raise ret batch].
  simpl.
  destruct (faults w) as [|[e|] fs] eqn:Ef; simpl;
    [ | | destruct fs as [|[e|] fs']; simpl ];
    try (destruct (bool_decide (NoDup (FeatureDaily.key <$> batch))) eqn:Ed;
         simpl in Ed |- *; rewrite Ed; simpl);
    rewrite ?Ef; simpl;
    eexists _, _; (split; [reflexivity|]); (split; [reflexivity|]); simpl;
    rewrite <- ?app_assoc; simpl;
    first [ left; by repeat split
          | right; eexists; repeat split; first [by left | by right] ].
Qed.

(** C7: a call of [bulk_upsert_to_db] shows the whole batch or nothing of
    it.  On an empty batch nothing is sent.  Otherwise the statement is sent
    once; when it and the commit succeed the table is the old one with every
    row of the batch merged in, and the number of rows is returned; when
    either fails (a fault of the database, or a batch with one key twice) the
    transaction is rolled back, the table is the one before the call, the
    error is logged and re-raised, and the statement is not sent again.  In
    both cases the session is closed with no transaction left open. *)
Theorem C7_upsert_all_or_nothing (dict_list : list FeatureDaily.t) (w : World) :
  exists res w',
    bulk_upsert_to_db dict_list w = (res, w') /\
    ((dict_list = [] /\ res = Ok 0 /\
      feature_daily w' = feature_daily w /\ pending w' = pending w /\
      db_trace w' = db_trace w) \/
     (res = Ok (length dict_list) /\
      feature_daily w' = merge_rows dict_list (feature_daily w) /\
      pending w' = None /\
      db_trace w' = db_trace w ++ [OpExecuteUpsert dict_list; OpCommit; OpClose]) \/
     (exists e,
        res = Raise e /\
        feature_daily w' = feature_daily w /\
        pending w' = None /\
        log w' = log w ++ [ErrorUpsertFailed e] /\
        (db_trace w' = db_trace w ++ [OpExecuteUpsert dict_list; OpRollback; OpClose] \/
         db_trace w' =
           db_trace w ++ [OpExecuteUpsert dict_list; OpCommit; OpRollback; OpClose]))).
Proof.
  destruct dict_list as [|r0 rest].
  - eexists _, _. split; [reflexivity|]. left. by repeat split.
  - destruct (bulk_upsert_cases r0 rest w)
      as (res & w' & Hrun & Hp & [(Hres & Hf & Ht & _)|(e & Hres & Hf & Hl & Ht)]).
    + exists res, w'. split; [done|]. right. left. by repeat split.
    + exists res, w'. split; [done|]. right. right. exists e. by repeat split.
Qed.

End properties.

(** * The properties at sample inputs *)

#[global] Existing Instance sqrt_to_nine_decimals.

Lemma pads_in_range_2024 : pads_in_range 738886%Z.
Proof. unfold pads_in_range. rewrite ordinal_year_1000_eq, max_ordinal_eq. lia. Defined.

(** ** Requests for a single day *)

(** C1, as stated, fails: asked for 2024-01-01 alone, with bars on
    2023-12-31 and 2024-01-01 in the table, [etl_by_stock] returns two dicts,
    the first for the padding day 2023-12-31. *)
Lemma C1_padding_row_returned :
  exists recs w',
    etl_by_stock sample_etl "X" (Some 738886%Z) (Some 738886%Z) two_days = (Ok recs, w') /\
    FeatureDaily.trade_date <$> recs = [738885%Z; 738886%Z].
Proof. eexists _, _. split; [vm_compute; reflexivity|reflexivity]. Qed.

(** C1, amended, at that request: the dates of the dicts are those of the
    bars of the window, in ascending order. *)
Lemma C1_single_day_of_two_days :
  pads_in_range 738886%Z /\
  exists recs w',
    etl_by_stock sample_etl "X" (Some 738886%Z) (Some 738886%Z) two_days = (Ok recs, w') /\
    FeatureDaily.trade_date <$> recs =
      Kline.date <$> select_kline (kline_table two_days) "X"
                       (Some (738886 - 29)%Z) (Some 738886%Z) /\
    Sorted Z.le (FeatureDaily.trade_date <$> recs).
Proof.
  split; [exact pads_in_range_2024|].
  destruct (C1_single_day_returns_padded_window sample_etl "X" 738886%Z two_days
              pads_in_range_2024)
    as (recs & w' & Hrun & Hdates & _ & Hsorted & _).
  exists recs, w'. repeat split; assumption.
Defined.

(** C3 at that request: the query carries the texts of 2023-12-03 and
    2024-01-01. *)
Lemma C3_fetch_window_of_two_days :
  pads_in_range 738886%Z /\
  exists recs w',
    etl_by_stock sample_etl "X" (Some 738886%Z) (Some 738886%Z) two_days = (Ok recs, w') /\
    db_trace w' = [OpSelectKline "X" (Some (Iso 738857%Z)) (Some (Iso 738886%Z)); OpClose].
Proof.
  split; [exact pads_in_range_2024|].
  destruct (C3_single_day_fetch_window sample_etl "X" 738886%Z two_days pads_in_range_2024)
    as (recs & w' & Hrun & Htrace & _).
  exists recs, w'. split; [exact Hrun|exact Htrace].
Defined.

(** Asked for 0001-01-15 alone, the call ends with [OverflowError]. *)
Example single_day_in_january_of_year_1 :
  etl_by_stock sample_etl "X" (Some 15%Z) (Some 15%Z) two_days =
    (Raise OverflowError, two_days).
Proof. apply single_day_near_min_raises. unfold min_ordinal. lia. Qed.

(** Asked for 0001-04-10 alone, the bound is the text of 0001-03-12 with a
    short year: a database that refuses it ends the call with its error, after
    the session is closed. *)
Example single_day_in_year_1_refused :
  exists w',
    etl_by_stock sample_etl "X" (Some 100%Z) (Some 100%Z) two_days =
      (Raise (DatabaseError "invalid input syntax for type date"), w') /\
    db_trace w' = [OpSelectKline "X" (Some (Unpadded 71%Z)) (Some (Iso 100%Z)); OpClose].
Proof. eexists. split; [vm_compute; reflexivity|reflexivity]. Qed.

(** ** Series that are not checked *)

(** C8, as stated, fails: with two bars of one day in the table the call
    returns normally, with a dict for each. *)
Lemma C8_duplicate_dates_accepted :
  exists recs w',
    etl_by_stock sample_etl "X" None None duplicate_day = (Ok recs, w') /\
    FeatureDaily.key <$> recs = [("X", 738886%Z); ("X", 738886%Z)].
Proof. eexists _, _. split; [vm_compute; reflexivity|reflexivity]. Qed.

(** ** Timestamps and run identifier *)

(** C9, as stated, fails: with a clock that advances at every reading, the
    one dict returned has [created_at = 0] and [updated_at = 1]. *)
Lemma C9_two_clock_readings :
  exists r w',
    etl_by_stock sample_etl "X" None None one_day = (Ok [r], w') /\
    FeatureDaily.created_at r = 0%Z /\ FeatureDaily.updated_at r = 1%Z.
Proof. eexists _, _. split; [vm_compute; reflexivity|split; reflexivity]. Qed.

(** ** The upsert *)

(** Each outcome of a call occurs.  The statement fails: *)
Example upsert_statement_fails :
  exists w',
    bulk_upsert_to_db [sample_dict 1; sample_dict 2]
      (world_of [] [Some (DatabaseError "connection lost")]) =
      (Raise (DatabaseError "connection lost"), w') /\
    feature_daily w' = ∅ /\
    db_trace w' =
      [OpExecuteUpsert [sample_dict 1; sample_dict 2]; OpRollback; OpClose].
Proof. eexists. split; [vm_compute; reflexivity|]. split; reflexivity. Qed.

(** The commit fails, after the statement went through: *)
Example upsert_commit_fails :
  exists w',
    bulk_upsert_to_db [sample_dict 1; sample_dict 2]
      (world_of [] [None; Some (DatabaseError "connection lost")]) =
      (Raise (DatabaseError "connection lost"), w') /\
    feature_daily w' = ∅ /\ pending w' = None /\
    db_trace w' =
      [OpExecuteUpsert [sample_dict 1; sample_dict 2]; OpCommit; OpRollback; OpClose].
Proof. eexists. split; [vm_compute; reflexivity|]. repeat split; reflexivity. Qed.

(** The batch holds one key twice: *)
Example upsert_key_twice :
  exists w',
    bulk_upsert_to_db [sample_dict 1; sample_dict 1] (world_of [] []) =
      (Raise CardinalityViolation, w') /\
    feature_daily w' = ∅.
Proof. eexists. split; [vm_compute; reflexivity|]. reflexivity. Qed.

(** All goes well: *)
Example upsert_succeeds :
  exists w',
    bulk_upsert_to_db [sample_dict 1; sample_dict 2] (world_of [] []) = (Ok 2, w') /\
    feature_daily w' !! ("X", 1%Z) = Some (sample_dict 1) /\
    feature_daily w' !! ("X", 2%Z) = Some (sample_dict 2) /\
    size (feature_daily w') = 2.
Proof. eexists. split; [vm_compute; reflexivity|]. repeat split; reflexivity. Qed.

(** ** The indicators *)

(** C5 at the closes 10, 12, 11, 13, 14: [ma5] of the fifth row is 12. *)
Lemma C5_ma5_of_five_bars :
  4 < length five_bars /\
  exists m, DF.ma5 (calculate_features "X" five_bars) !! 4 = Some (Some m) /\
            (m == 12)%Q.
Proof.
  assert (Hlen : 4 < length five_bars) by (simpl; lia).
  split; [exact Hlen|].
  destruct (C5_ma5_trailing_mean "X" five_bars 4 Hlen) as (_ & H & _).
  destruct (H (le_n 4))
    as (k0 & k1 & k2 & k3 & k4 & E0 & E1 & E2 & E3 & E4 & Hmean & _).
  simpl in E0, E1, E2, E3, E4.
  injection E0 as <-. injection E1 as <-. injection E2 as <-.
  injection E3 as <-. injection E4 as <-.
  destruct (Hmean 10 12 11 13 14 eq_refl eq_refl eq_refl eq_refl eq_refl)%Q
    as (m & Em & Hm).
  exists m. split; [exact Em|].
  rewrite Hm. reflexivity.
Defined.

(** With a NULL close on the third day, [ma5] is null at the rows 4 to 6,
    whose windows hold that day, and is the mean 6 of the closes 4, 5, 6, 7, 8
    at row 7. *)
Example ma5_with_null_close :
  DF.ma5 (calculate_features "X" bars_with_null_close) =
    [NaN; NaN; NaN; NaN; NaN; NaN; NaN; mean [4; 5; 6; 7; 8]%Q].
Proof. reflexivity. Qed.

(** C6 at these five bars: every row has its five cells. *)
Lemma C6_macd_of_five_bars :
  Forall (fun r =>
            exists e12 e26 dea : Q,
              DF.r_ema12 r = Some e12 /\ DF.r_ema26 r = Some e26 /\
              DF.r_macd_dif r = Some (e12 - e26)%Q /\
              DF.r_macd_dea r = Some dea /\
              DF.r_macd_osc r = Some (e12 - e26 - dea)%Q)
         (DF.iterrows (calculate_features "X" five_bars)).
Proof.
  destruct (C6_macd_identities "X" five_bars) as (_ & _ & Hdefined).
  apply Hdefined. intros k [= <-]. reflexivity.
Defined.

(** With a NULL close on the first day, the averages and the three MACD
    cells of the first row are NaN, and null in its dict; they are numbers
    from the second row on. *)
Example macd_with_leading_null :
  exists r0 r1 r2,
    DF.iterrows (calculate_features "X" bars_with_leading_null) = [r0; r1; r2] /\
    DF.r_ema12 r0 = NaN /\ DF.r_ema26 r0 = NaN /\ DF.r_macd_dif r0 = NaN /\
    DF.r_macd_dea r0 = NaN /\ DF.r_macd_osc r0 = NaN /\
    none_if_null (DF.r_macd_dif r0) = None /\
    is_Some (DF.r_macd_dif r1) /\ is_Some (DF.r_macd_dea r1) /\
    is_Some (DF.r_macd_osc r1) /\ is_Some (DF.r_macd_osc r2).
Proof.
  eexists _, _, _. split; [vm_compute; reflexivity|].
  repeat split; try reflexivity; by eexists.
Qed.

(** C2 at a series of one bar: the bands of its row are null and both flags
    are [False]. *)
Lemma C2_flags_of_one_bar :
  exists r,
    DF.iterrows (calculate_features "X" [bar "X" 738886 10]) !! 0 = Some r /\
    none_if_null (DF.r_bb_upper20 r) = None /\
    none_if_null (DF.r_bb_lower20 r) = None /\
    bool_unless_null (DF.r_bb_break_up r) = Some false /\
    bool_unless_null (DF.r_bb_break_dn r) = Some false.
Proof.
  eexists. split; [vm_compute; reflexivity|].
  match goal with
  | |- none_if_null (DF.r_bb_upper20 ?r) = _ /\ _ =>
      destruct (C2_flags_false_while_band_null "X" [bar "X" 738886 10] 0 r
                  eq_refl (Nat.lt_0_succ 18))
        as (Hu & Hl & _ & _ & Hbu & Hbd)
  end.
  repeat split; assumption.
Defined.

(** The dict [etl_by_stock] returns for that bar: bands null, flags
    [False]. *)
Example one_bar_dict :
  exists r w',
    etl_by_stock sample_etl "X" None None one_day = (Ok [r], w') /\
    FeatureDaily.bb_upper20 r = None /\ FeatureDaily.bb_lower20 r = None /\
    FeatureDaily.bb_break_up r = Some false /\
    FeatureDaily.bb_break_dn r = Some false.
Proof. eexists _, _. split; [vm_compute; reflexivity|]. repeat split; reflexivity. Qed.
